(** * Response handling of the IPTS driver (receiver.c)

    A shallow embedding of [src/receiver.c]: the response handlers, the
    error classifier, the response dispatcher and the MEI channel callback.

    The C functions all take the long-lived [struct ipts_context *ipts] and
    mutate it in place, call into the other translation units of the driver
    (cmd.c, control.c, hid.c, resources.c) and into the kernel (completion,
    delay, MEI bus, device log).  They are embedded in a small monad that
    threads the context and records, in program order, every store to the
    context and every call that leaves the file. *)

From Stdlib Require Import ZArith List String Bool Lia.
From Stdlib Require Import Strings.Byte.
Import ListNotations.
Local Open Scope string_scope.
Local Open Scope list_scope.
Local Open Scope Z_scope.

(** ** Enumerators of protocol.h and context.h

    receiver.c only names these enumerators; their numeric values live in
    headers that are not part of the file, so they are parameters here. *)

Class headers := {
  (* enum ipts_status *)
  IPTS_STATUS_SUCCESS : Z;
  IPTS_STATUS_INVALID_PARAMS : Z;
  IPTS_STATUS_SENSOR_DISABLED : Z;
  IPTS_STATUS_COMPAT_CHECK_FAIL : Z;
  IPTS_STATUS_SENSOR_EXPECTED_RESET : Z;
  IPTS_STATUS_SENSOR_UNEXPECTED_RESET : Z;
  (* response codes *)
  IPTS_RSP_GET_DEVICE_INFO : Z;
  IPTS_RSP_SET_MODE : Z;
  IPTS_RSP_SET_MEM_WINDOW : Z;
  IPTS_RSP_READY_FOR_DATA : Z;
  IPTS_RSP_FEEDBACK : Z;
  IPTS_RSP_RESET_SENSOR : Z;
  (* enum ipts_host_status *)
  IPTS_HOST_STATUS_STARTED : Z;
  IPTS_HOST_STATUS_STOPPING : Z;
  IPTS_HOST_STATUS_STOPPED : Z;
  (* enum ipts_mode *)
  IPTS_MODE_SINGLETOUCH : Z;
  (* sizeof(struct ipts_get_device_info_rsp) *)
  sizeof_device_info : nat
}.

(** Pairwise distinctness of a list of enumerators. *)
Fixpoint distinct (l : list Z) : bool :=
  match l with
  | [] => true
  | x :: r => negb (existsb (Z.eqb x) r) && distinct r
  end.

(** The status enumerators are pairwise distinct, and so are the response
    codes.  For the labels of one [switch] this is what the C compiler
    enforces (a duplicate case value is rejected). *)
Definition enumerators_distinct `{headers} : bool :=
  distinct [IPTS_STATUS_SUCCESS; IPTS_STATUS_COMPAT_CHECK_FAIL;
            IPTS_STATUS_INVALID_PARAMS; IPTS_STATUS_SENSOR_DISABLED;
            IPTS_STATUS_SENSOR_EXPECTED_RESET;
            IPTS_STATUS_SENSOR_UNEXPECTED_RESET]
  && distinct [IPTS_RSP_GET_DEVICE_INFO; IPTS_RSP_SET_MODE;
               IPTS_RSP_SET_MEM_WINDOW; IPTS_RSP_READY_FOR_DATA;
               IPTS_RSP_FEEDBACK; IPTS_RSP_RESET_SENSOR].

(** ** Data *)

(** [struct ipts_response]: { u32 code; u32 status; u8 payload[] }. *)
Record ipts_response := {
  rsp_code : Z;
  rsp_status : Z;
  rsp_payload : list byte
}.

(** [struct ipts_context], with the fields receiver.c reads or writes.
    [doorbell] is the u32 stored at [ipts->doorbell.address];
    [on_device_ready] is the done-state of the completion; [rest] stands for
    everything else the context owns (buffers, HID device, MEI client), which
    only the collaborators touch. *)
Record ipts_context {Env : Type} := {
  status : Z;
  mode : Z;
  restart : bool;
  device_info : list byte;
  doorbell : Z;
  on_device_ready : bool;
  rest : Env
}.
Arguments ipts_context : clear implicits.

(** Functions of the driver's other translation units called from here. *)
Inductive collaborator :=
| Cmd_set_mode (m : Z)
| Cmd_set_mem_window
| Cmd_ready_for_data
| Resources_alloc
| Resources_free
| Hid_init
| Hid_free
| Control_start
| Control_restart
| Control_stop.

(** What a run of the code does, in program order. *)
Inductive event :=
| Store_status (v : Z)
| Store_device_info (bytes : list byte)
| Store_doorbell (v : Z)
| Call (c : collaborator)
| Complete_all
| Msleep (ms : Z)
| Recv
| Dev_info (fmt : string)
| Dev_err (fmt : string) (args : list Z).

(** How the collaborators behave: each call maps the context to an [int]
    result and a new context; [mei_recv] in addition yields the frame it
    wrote into the caller's buffer. *)
Class collaborators (Env : Type) := {
  run : collaborator -> ipts_context Env -> Z * ipts_context Env;
  mei_recv : ipts_context Env -> (Z * ipts_response) * ipts_context Env
}.

(** Number of calls to the collaborators selected by [p] in a trace. *)
Definition calls (p : collaborator -> bool) (t : list event) : nat :=
  List.length (filter (fun e => match e with Call c => p c | _ => false end) t).

Definition is_ready_for_data (c : collaborator) : bool :=
  match c with Cmd_ready_for_data => true | _ => false end.
Definition is_set_mem_window (c : collaborator) : bool :=
  match c with Cmd_set_mem_window => true | _ => false end.
Definition is_resources_free (c : collaborator) : bool :=
  match c with Resources_free => true | _ => false end.
Definition is_hid_free (c : collaborator) : bool :=
  match c with Hid_free => true | _ => false end.
Definition is_start (c : collaborator) : bool :=
  match c with Control_start => true | _ => false end.
Definition is_restart (c : collaborator) : bool :=
  match c with Control_restart => true | _ => false end.
Definition is_stop (c : collaborator) : bool :=
  match c with Control_stop => true | _ => false end.

Section Receiver.

Context `{H : headers} {Env : Type} {K : collaborators Env}.

Local Abbreviation context := (ipts_context Env).

(** ** The monad *)

Record outcome (A : Type) := {
  value : A;
  after : context;
  trace : list event
}.
Arguments value {A} _.
Arguments after {A} _.
Arguments trace {A} _.

Definition M (A : Type) : Type := context -> outcome A.

Definition ret {A} (a : A) : M A :=
  fun ipts => {| value := a; after := ipts; trace := [] |}.

Definition bind {A B} (m : M A) (k : A -> M B) : M B :=
  fun ipts =>
    let r := m ipts in
    let r' := k (value r) (after r) in
    {| value := value r'; after := after r'; trace := trace r ++ trace r' |}.

Notation "x <- m ;; k" := (bind m (fun x => k))
  (at level 61, m at next level, right associativity).
Notation "m ;; k" := (bind m (fun _ => k))
  (at level 61, right associativity).

Definition get : M context :=
  fun ipts => {| value := ipts; after := ipts; trace := [] |}.

Definition emit (e : event) : M unit :=
  fun ipts => {| value := tt; after := ipts; trace := [e] |}.

(** *** Stores to the context *)

Definition set_status (v : Z) (c : context) : context :=
  {| status := v; mode := mode c; restart := restart c;
     device_info := device_info c; doorbell := doorbell c;
     on_device_ready := on_device_ready c; rest := rest c |}.

Definition set_device_info (b : list byte) (c : context) : context :=
  {| status := status c; mode := mode c; restart := restart c;
     device_info := b; doorbell := doorbell c;
     on_device_ready := on_device_ready c; rest := rest c |}.

Definition set_doorbell (v : Z) (c : context) : context :=
  {| status := status c; mode := mode c; restart := restart c;
     device_info := device_info c; doorbell := v;
     on_device_ready := on_device_ready c; rest := rest c |}.

Definition set_on_device_ready (b : bool) (c : context) : context :=
  {| status := status c; mode := mode c; restart := restart c;
     device_info := device_info c; doorbell := doorbell c;
     on_device_ready := b; rest := rest c |}.

(** [ipts->status = v;] *)
Definition store_status (v : Z) : M unit :=
  fun ipts =>
    {| value := tt; after := set_status v ipts; trace := [Store_status v] |}.

(** [memcpy(&ipts->device_info, src, sizeof(ipts->device_info));] *)
Definition memcpy_device_info (src : list byte) : M unit :=
  fun ipts =>
    let b := firstn sizeof_device_info src in
    {| value := tt; after := set_device_info b ipts;
       trace := [Store_device_info b] |}.

(** [*doorbell = v;] on a u32 cell: the stored value wraps to 32 bits. *)
Definition store_doorbell (v : Z) : M unit :=
  fun ipts =>
    let w := v mod 2 ^ 32 in
    {| value := tt; after := set_doorbell w ipts;
       trace := [Store_doorbell w] |}.

(** *** Calls that leave the file *)

Definition call (c : collaborator) : M Z :=
  fun ipts =>
    {| value := fst (run c ipts); after := snd (run c ipts);
       trace := [Call c] |}.

Definition ipts_cmd_set_mode (m : Z) : M Z := call (Cmd_set_mode m).
Definition ipts_cmd_set_mem_window : M Z := call Cmd_set_mem_window.
Definition ipts_cmd_ready_for_data : M Z := call Cmd_ready_for_data.
Definition ipts_resources_alloc : M Z := call Resources_alloc.
Definition ipts_resources_free : M Z := call Resources_free.
Definition ipts_hid_init : M Z := call Hid_init.
Definition ipts_hid_free : M Z := call Hid_free.
Definition ipts_control_start : M Z := call Control_start.
Definition ipts_control_restart : M Z := call Control_restart.
Definition ipts_control_stop : M Z := call Control_stop.

(** [complete_all(&ipts->on_device_ready)]: marks the completion done and
    wakes every waiter. *)
Definition complete_all : M unit :=
  fun ipts =>
    {| value := tt; after := set_on_device_ready true ipts;
       trace := [Complete_all] |}.

Definition msleep (ms : Z) : M unit := emit (Msleep ms).

(** Device log; format strings are kept without their trailing newline. *)
Definition dev_info (fmt : string) : M unit := emit (Dev_info fmt).
Definition dev_err (fmt : string) (args : list Z) : M unit :=
  emit (Dev_err fmt args).

(** [mei_cldev_recv(cldev, &rsp, sizeof(rsp))] *)
Definition mei_cldev_recv : M (Z * ipts_response) :=
  fun ipts =>
    {| value := fst (mei_recv ipts); after := snd (mei_recv ipts);
       trace := [Recv] |}.

(** ** The handlers *)

Definition ipts_receiver_handle_get_device_info (rsp : ipts_response) : M Z :=
  memcpy_device_info (rsp_payload rsp) ;;
  ipts <- get ;;
  ipts_cmd_set_mode (mode ipts).

Definition ipts_receiver_handle_set_mode : M Z :=
  r <- ipts_resources_alloc ;;
  if negb (r =? 0) then
    dev_err "Failed to allocate resources" [] ;;
    ret r
  else
    ipts_cmd_set_mem_window.

Definition ipts_receiver_handle_set_mem_window : M Z :=
  store_status IPTS_HOST_STATUS_STARTED ;;
  ipts_hid_init ;;
  complete_all ;;
  ipts_cmd_ready_for_data.

Definition ipts_receiver_handle_ready_for_data : M Z :=
  ipts <- get ;;
  if negb (mode ipts =? IPTS_MODE_SINGLETOUCH) then
    ret 0
  else
    store_doorbell (doorbell ipts + 1) ;;
    ret 0.

Definition ipts_receiver_handle_feedback (rsp : ipts_response) : M Z :=
  ipts <- get ;;
  if mode ipts =? IPTS_MODE_SINGLETOUCH then
    ipts_cmd_ready_for_data
  else
    ret 0.

Definition ipts_receiver_handle_reset : M Z :=
  store_status IPTS_HOST_STATUS_STOPPED ;;
  ipts <- get ;;
  if restart ipts then
    msleep 1000 ;;
    ipts_control_start
  else
    ipts_resources_free ;;
    ipts_hid_free ;;
    ret 0.

(** ** The error classifier *)

(** The value of [error] after the [switch (rsp->status)]. *)
Definition error_of (st code host : Z) : bool :=
  if (st =? IPTS_STATUS_SUCCESS) || (st =? IPTS_STATUS_COMPAT_CHECK_FAIL)
  then false
  else if st =? IPTS_STATUS_INVALID_PARAMS
  then negb (code =? IPTS_RSP_FEEDBACK)
  else if (st =? IPTS_STATUS_SENSOR_DISABLED)
          || (st =? IPTS_STATUS_SENSOR_EXPECTED_RESET)
  then negb (host =? IPTS_HOST_STATUS_STOPPING)
  else true.

Definition ipts_receiver_handle_error (rsp : ipts_response) : M bool :=
  ipts <- get ;;
  let error := error_of (rsp_status rsp) (rsp_code rsp) (status ipts) in
  if negb error then
    ret false
  else
    dev_err "Command 0x%08x failed: %d" [rsp_code rsp; rsp_status rsp] ;;
    ret true.

(** The decision table of the specification, row by row: [error] is the
    tabulated answer for status [st], opcode [code] and host status [host]. *)
Definition spec_decision_table (st code host : Z) (error : bool) : Prop :=
  (st = IPTS_STATUS_SUCCESS \/ st = IPTS_STATUS_COMPAT_CHECK_FAIL ->
     error = false)
  /\ (st = IPTS_STATUS_INVALID_PARAMS ->
       (error = true <-> code <> IPTS_RSP_FEEDBACK))
  /\ (st = IPTS_STATUS_SENSOR_DISABLED
       \/ st = IPTS_STATUS_SENSOR_EXPECTED_RESET ->
       (error = true <-> host <> IPTS_HOST_STATUS_STOPPING))
  /\ (st <> IPTS_STATUS_SUCCESS -> st <> IPTS_STATUS_COMPAT_CHECK_FAIL ->
      st <> IPTS_STATUS_INVALID_PARAMS ->
      st <> IPTS_STATUS_SENSOR_DISABLED ->
      st <> IPTS_STATUS_SENSOR_EXPECTED_RESET ->
      error = true).

(** ** The dispatcher *)

(** The [switch (rsp->code)] of the dispatcher. *)
Definition route (rsp : ipts_response) : M Z :=
  let code := rsp_code rsp in
  if code =? IPTS_RSP_GET_DEVICE_INFO then
    ipts_receiver_handle_get_device_info rsp
  else if code =? IPTS_RSP_SET_MODE then
    ipts_receiver_handle_set_mode
  else if code =? IPTS_RSP_SET_MEM_WINDOW then
    ipts_receiver_handle_set_mem_window
  else if code =? IPTS_RSP_READY_FOR_DATA then
    ipts_receiver_handle_ready_for_data
  else if code =? IPTS_RSP_FEEDBACK then
    ipts_receiver_handle_feedback rsp
  else if code =? IPTS_RSP_RESET_SENSOR then
    ipts_receiver_handle_reset
  else
    ret 0.

Definition ipts_receiver_handle_response (rsp : ipts_response) : M unit :=
  if rsp_status rsp =? IPTS_STATUS_SENSOR_UNEXPECTED_RESET then
    dev_info "Sensor was reset" ;;
    r <- ipts_control_restart ;;
    if negb (r =? 0) then dev_err "Failed to restart IPTS" [] else ret tt
  else
    e <- ipts_receiver_handle_error rsp ;;
    if e then ret tt
    else
      r <- route rsp ;;
      if r =? 0 then ret tt
      else
        dev_err "Error while handling response 0x%08x: %d" [rsp_code rsp; r] ;;
        s <- ipts_control_stop ;;
        if negb (s =? 0) then dev_err "Failed to stop IPTS" [] else ret tt.

(** ** The channel callback *)

Definition ipts_receiver_callback : M unit :=
  ipts <- get ;;
  if status ipts =? IPTS_HOST_STATUS_STOPPED then ret tt
  else
    got <- mei_cldev_recv ;;
    if fst got <=? 0 then
      dev_err "Error while reading response: %d" [fst got]
    else
      ipts_receiver_handle_response (snd got).

(** ** Runs of several responses *)

(** Dispatch the responses of [rs] one after the other. *)
Fixpoint feed (rs : list ipts_response) : M unit :=
  match rs with
  | [] => ret tt
  | r :: rs' => ipts_receiver_handle_response r ;; feed rs'
  end.

(** Run [m] [n] times in a row and collect the results. *)
Fixpoint times (n : nat) (m : M Z) : M (list Z) :=
  match n with
  | O => ret []
  | S n' => r <- m ;; rs <- times n' m ;; ret (r :: rs)
  end.

(** ** Assumptions on collaborators *)

(** Collaborator [c] leaves field [f] of the context as it found it. *)
Definition keeps {A} (f : context -> A) (c : collaborator) : Prop :=
  forall ipts, f (snd (run c ipts)) = f ipts.

End Receiver.

Arguments value {Env A} _.
Arguments after {Env A} _.
Arguments trace {Env A} _.

(** ** A concrete driver instance

    One numbering of the enumerators and one family of collaborators, used
    to run the model on concrete inputs. *)

Definition sample_headers : headers := {|
  IPTS_STATUS_SUCCESS := 0;
  IPTS_STATUS_INVALID_PARAMS := 1;
  IPTS_STATUS_SENSOR_DISABLED := 9;
  IPTS_STATUS_COMPAT_CHECK_FAIL := 10;
  IPTS_STATUS_SENSOR_EXPECTED_RESET := 11;
  IPTS_STATUS_SENSOR_UNEXPECTED_RESET := 12;
  IPTS_RSP_GET_DEVICE_INFO := 0x80000001;
  IPTS_RSP_SET_MODE := 0x80000002;
  IPTS_RSP_SET_MEM_WINDOW := 0x80000003;
  IPTS_RSP_READY_FOR_DATA := 0x80000005;
  IPTS_RSP_FEEDBACK := 0x80000006;
  IPTS_RSP_RESET_SENSOR := 0x8000000b;
  IPTS_HOST_STATUS_STARTED := 1;
  IPTS_HOST_STATUS_STOPPING := 2;
  IPTS_HOST_STATUS_STOPPED := 3;
  IPTS_MODE_SINGLETOUCH := 0;
  sizeof_device_info := 4
|}.

(** Collaborators over a transport queue of pending frames.  A call selected
    by [fails] returns -5 (EIO), any other returns 0; the stop procedure
    moves the host status to Stopping, the restart procedure sets the restart
    flag, and a read pops the next frame (0 bytes when none is pending). *)
Definition scripted (fails : collaborator -> bool)
  : collaborators (list ipts_response) := {|
  run c ipts :=
    (if fails c then -5 else 0,
     match c with
     | Control_stop => set_status 2 ipts
     | Control_restart =>
         {| status := status ipts; mode := mode ipts; restart := true;
            device_info := device_info ipts; doorbell := doorbell ipts;
            on_device_ready := on_device_ready ipts; rest := rest ipts |}
     | _ => ipts
     end);
  mei_recv ipts :=
    match rest ipts with
    | [] => ((0, {| rsp_code := 0; rsp_status := 0; rsp_payload := [] |}),
             ipts)
    | f :: q =>
        ((72, f),
         {| status := status ipts; mode := mode ipts; restart := restart ipts;
            device_info := device_info ipts; doorbell := doorbell ipts;
            on_device_ready := on_device_ready ipts; rest := q |})
    end
|}.

Definition nothing_fails (c : collaborator) : bool := false.

(** A context in host status [st] and operating mode [m], doorbell at [d]. *)
Definition sample_context (st m : Z) (flag : bool) (d : Z)
  : ipts_context (list ipts_response) :=
  {| status := st; mode := m; restart := flag; device_info := [];
     doorbell := d; on_device_ready := false; rest := [] |}.

Definition sample_response (code st : Z) : ipts_response :=
  {| rsp_code := code; rsp_status := st; rsp_payload := [x2a; x00; x01; x02; x03]%byte |}.

(** A stopped host with a frame pending on the transport. *)
Definition stopped_with_frame : ipts_context (list ipts_response) :=
  {| status := 3; mode := 1; restart := false; device_info := [];
     doorbell := 0; on_device_ready := true;
     rest := [sample_response 0x80000005 0] |}.

(** A started host in mode 1 with two frames pending on the transport: a
    Feedback response rejected as Invalid-parameters, then a Set-Mode
    response. *)
Definition started_with_frames : ipts_context (list ipts_response) :=
  {| status := 1; mode := 1; restart := false; device_info := [];
     doorbell := 0; on_device_ready := true;
     rest := [sample_response 0x80000006 1; sample_response 0x80000002 0] |}.

(** Collaborators whose "ready for data" command fails. *)
Definition fails_ready_for_data (c : collaborator) : bool :=
  match c with Cmd_ready_for_data => true | _ => false end.

(** Collaborators that fail on resource allocation, on start and on
    restart. *)
Definition fails_alloc_start_restart (c : collaborator) : bool :=
  match c with
  | Resources_alloc | Control_start | Control_restart => true
  | _ => false
  end.

(** ** Observations on traces *)

Definition is_recv (e : event) : bool :=
  match e with Recv => true | _ => false end.

(** Number of frames read from the transport in a trace. *)
Definition reads (t : list event) : nat := List.length (filter is_recv t).

(** The values stored into the host status in a trace, in order. *)
Definition status_stores (t : list event) : list Z :=
  flat_map (fun e => match e with Store_status v => [v] | _ => [] end) t.

(** The values stored into the doorbell in a trace, in order. *)
Definition doorbell_stores (t : list event) : list Z :=
  flat_map (fun e => match e with Store_doorbell v => [v] | _ => [] end) t.

Definition is_set_mode (c : collaborator) : bool :=
  match c with Cmd_set_mode _ => true | _ => false end.
Definition is_resources_alloc (c : collaborator) : bool :=
  match c with Resources_alloc => true | _ => false end.

(** Events a response handler can produce: anything but a transport read,
    an informational log, or a call of the restart or stop procedure. *)
Definition handler_event (e : event) : bool :=
  match e with
  | Recv | Dev_info _ | Call Control_restart | Call Control_stop => false
  | _ => true
  end.

(** * Properties *)

Section Properties.

Context `{H : headers} {Env : Type} {K : collaborators Env}.

Local Abbreviation context := (ipts_context Env).

(** Pairwise inequalities out of [enumerators_distinct]. *)
Ltac split_distinct Hd :=
  unfold enumerators_distinct in Hd; cbn [distinct existsb] in Hd;
  repeat rewrite ?andb_true_iff, ?negb_true_iff, ?orb_false_iff,
                 ?Z.eqb_neq in Hd;
  decompose [and] Hd; clear Hd.

(** Decide every integer test left in the goal. *)
Ltac decide_tests :=
  repeat match goal with
         | |- context [?a =? ?b] => destruct (Z.eqb_spec a b)
         end.

(** The classifier returns [error_of], keeps the context and logs exactly
    when it reports an error. *)
Lemma handle_error_run (rsp : ipts_response) (ipts : context) :
  let r := ipts_receiver_handle_error rsp ipts in
  value r = error_of (rsp_status rsp) (rsp_code rsp) (status ipts)
  /\ after r = ipts
  /\ trace r =
       if value r
       then [Dev_err "Command 0x%08x failed: %d" [rsp_code rsp; rsp_status rsp]]
       else [].
Proof.
  unfold ipts_receiver_handle_error, bind, get, ret, dev_err, emit; cbn.
  destruct (error_of _ _ _); cbn; auto.
Qed.

(** [error_of] agrees with the decision table on every row. *)
Lemma error_of_table (st code host : Z) :
  enumerators_distinct = true ->
  spec_decision_table st code host (error_of st code host).
Proof.
  intros Hd. split_distinct Hd.
  unfold spec_decision_table, error_of.
  split; [|split; [|split]].
  - intros [-> | ->]; decide_tests; cbn; congruence.
  - intros ->. decide_tests; cbn; split; intros; congruence.
  - intros [-> | ->]; decide_tests; cbn; split; intros; congruence.
  - intros. decide_tests; cbn; congruence.
Qed.

(** C1: for every response status, opcode and host status the error
    classifier returns the value of the decision table: Success and
    Compatibility-check-failed are never errors, Invalid-parameters is an
    error exactly when the opcode is not Feedback, Sensor-disabled and
    Sensor-expected-reset are errors exactly when the host is not Stopping,
    every other status is an error.  The classifier leaves the context
    alone and logs exactly when it reports an error. *)
Theorem handle_error_decision_table (rsp : ipts_response) (ipts : context) :
  enumerators_distinct = true ->
  let r := ipts_receiver_handle_error rsp ipts in
  spec_decision_table (rsp_status rsp) (rsp_code rsp) (status ipts) (value r)
  /\ after r = ipts
  /\ trace r =
       if value r
       then [Dev_err "Command 0x%08x failed: %d" [rsp_code rsp; rsp_status rsp]]
       else [].
Proof.
  intros Hd r.
  destruct (handle_error_run rsp ipts) as (Hv & Ha & Ht). fold r in Hv, Ha, Ht.
  rewrite Hv at 1. auto using error_of_table.
Qed.

(** ** The dispatcher *)

Lemma calls_app (p : collaborator -> bool) (t u : list event) :
  calls p (t ++ u) = (calls p t + calls p u)%nat.
Proof. unfold calls. now rewrite filter_app, length_app. Qed.

(** A response that is neither an unsolicited reset nor classified as an
    error goes to its handler, and a non-zero result stops the driver. *)
Lemma handle_response_routed (rsp : ipts_response) (ipts : context) :
  rsp_status rsp <> IPTS_STATUS_SENSOR_UNEXPECTED_RESET ->
  error_of (rsp_status rsp) (rsp_code rsp) (status ipts) = false ->
  let h := route rsp ipts in
  let stop := run Control_stop (after h) in
  ipts_receiver_handle_response rsp ipts =
  if value h =? 0 then {| value := tt; after := after h; trace := trace h |}
  else
    {| value := tt; after := snd stop;
       trace := trace h
                ++ [Dev_err "Error while handling response 0x%08x: %d"
                            [rsp_code rsp; value h];
                    Call Control_stop]
                ++ (if fst stop =? 0 then []
                    else [Dev_err "Failed to stop IPTS" []]) |}.
Proof.
  intros Hu He h stop. subst h stop.
  unfold ipts_receiver_handle_response.
  apply Z.eqb_neq in Hu. rewrite Hu.
  unfold bind at 1.
  destruct (handle_error_run rsp ipts) as (Hv & Ha & Ht).
  cbv zeta in Hv, Ha, Ht. rewrite He in Hv. rewrite Hv in Ht.
  rewrite Hv, Ha, Ht. cbn [app].
  unfold bind, ret, dev_err, emit, ipts_control_stop, call; cbn.
  destruct (value (route rsp ipts) =? 0); cbn.
  - now rewrite app_nil_r.
  - destruct (fst (run Control_stop (after (route rsp ipts))) =? 0); cbn;
      reflexivity.
Qed.

Lemma error_of_success (code host : Z) :
  error_of IPTS_STATUS_SUCCESS code host = false.
Proof. unfold error_of. now rewrite Z.eqb_refl. Qed.

(** *** The opcode switch *)

Ltac switch_on Hd Hc :=
  split_distinct Hd; unfold route; rewrite Hc; decide_tests;
  congruence || reflexivity.


Lemma route_set_mode (rsp : ipts_response) :
  enumerators_distinct = true ->
  rsp_code rsp = IPTS_RSP_SET_MODE ->
  route rsp = ipts_receiver_handle_set_mode.
Proof. intros Hd Hc. switch_on Hd Hc. Qed.

Lemma route_set_mem_window (rsp : ipts_response) :
  enumerators_distinct = true ->
  rsp_code rsp = IPTS_RSP_SET_MEM_WINDOW ->
  route rsp = ipts_receiver_handle_set_mem_window.
Proof. intros Hd Hc. switch_on Hd Hc. Qed.

Lemma route_ready_for_data (rsp : ipts_response) :
  enumerators_distinct = true ->
  rsp_code rsp = IPTS_RSP_READY_FOR_DATA ->
  route rsp = ipts_receiver_handle_ready_for_data.
Proof. intros Hd Hc. switch_on Hd Hc. Qed.

Lemma route_reset (rsp : ipts_response) :
  enumerators_distinct = true ->
  rsp_code rsp = IPTS_RSP_RESET_SENSOR ->
  route rsp = ipts_receiver_handle_reset.
Proof. intros Hd Hc. switch_on Hd Hc. Qed.

Lemma status_not_unexpected_reset :
  enumerators_distinct = true ->
  IPTS_STATUS_SUCCESS <> IPTS_STATUS_SENSOR_UNEXPECTED_RESET.
Proof. intros Hd. split_distinct Hd. assumption. Qed.

(** The unsolicited-reset path of the dispatcher. *)
Lemma unexpected_reset_short_circuits_run
    (rsp : ipts_response) (ipts : context) :
  rsp_status rsp = IPTS_STATUS_SENSOR_UNEXPECTED_RESET ->
  let r := ipts_receiver_handle_response rsp ipts in
  after r = snd (run Control_restart ipts)
  /\ trace r =
       [Dev_info "Sensor was reset"; Call Control_restart]
       ++ (if fst (run Control_restart ipts) =? 0 then []
           else [Dev_err "Failed to restart IPTS" []]).
Proof.
  intros Hs r. subst r. unfold ipts_receiver_handle_response.
  rewrite Hs, Z.eqb_refl.
  unfold bind, ret, dev_info, dev_err, emit, ipts_control_restart, call; cbn.
  destruct (fst (run Control_restart ipts) =? 0); cbn; auto.
Qed.

(** C2: a response whose status is Sensor-unexpected-reset, whatever its
    opcode and whatever the host state, makes the dispatcher log the reset
    and invoke the restart procedure once on the untouched context; nothing
    else is called or stored, so neither the error classifier nor a response
    handler leaves any effect, and a failed restart is only logged. *)
Theorem unexpected_reset_short_circuits (rsp : ipts_response) (ipts : context) :
  rsp_status rsp = IPTS_STATUS_SENSOR_UNEXPECTED_RESET ->
  let r := ipts_receiver_handle_response rsp ipts in
  after r = snd (run Control_restart ipts)
  /\ trace r =
       [Dev_info "Sensor was reset"; Call Control_restart]
       ++ (if fst (run Control_restart ipts) =? 0 then []
           else [Dev_err "Failed to restart IPTS" []])
  /\ calls is_restart (trace r) = 1%nat
  /\ calls (fun c => negb (is_restart c)) (trace r) = 0%nat.
Proof.
  intros Hs r. subst r.
  destruct (unexpected_reset_short_circuits_run rsp ipts Hs) as (Ha & Ht).
  cbv zeta in Ha, Ht. rewrite Ht.
  destruct (fst (run Control_restart ipts) =? 0); cbn; auto.
Qed.

(** C3: when the host status is Stopped the channel callback returns at
    once: no frame is read from the transport, nothing is called, logged or
    stored, and the context is the one it was given. *)
Theorem callback_discards_when_stopped (ipts : context) :
  status ipts = IPTS_HOST_STATUS_STOPPED ->
  ipts_receiver_callback ipts = {| value := tt; after := ipts; trace := [] |}.
Proof.
  intros Hs. unfold ipts_receiver_callback, bind, get; cbn.
  now rewrite Hs, Z.eqb_refl.
Qed.

(** ** Set-Mem-Window and the bring-up sequence *)

Lemma handle_set_mem_window_run (ipts : context) :
  let ready :=
    set_on_device_ready true
      (snd (run Hid_init (set_status IPTS_HOST_STATUS_STARTED ipts))) in
  ipts_receiver_handle_set_mem_window ipts =
  {| value := fst (run Cmd_ready_for_data ready);
     after := snd (run Cmd_ready_for_data ready);
     trace := [Store_status IPTS_HOST_STATUS_STARTED; Call Hid_init;
               Complete_all; Call Cmd_ready_for_data] |}.
Proof. reflexivity. Qed.





(** ** Reset *)

(** C5: handling a Reset response stores Stopped into the host status
    before anything else, in both branches.  With the restart flag set it
    then sleeps the settle delay of 1000 ms and calls the start procedure,
    whose result it returns, without freeing resources or tearing down the
    HID device; with the flag clear it frees the resources once, tears down
    the HID device once, does not call start, and returns 0. *)
Theorem handle_reset_branches (ipts : context) :
  let r := ipts_receiver_handle_reset ipts in
  let stopped := set_status IPTS_HOST_STATUS_STOPPED ipts in
  status stopped = IPTS_HOST_STATUS_STOPPED
  /\ if restart ipts then
       trace r = [Store_status IPTS_HOST_STATUS_STOPPED; Msleep 1000;
                  Call Control_start]
       /\ value r = fst (run Control_start stopped)
       /\ after r = snd (run Control_start stopped)
       /\ calls is_start (trace r) = 1%nat
       /\ calls is_resources_free (trace r) = 0%nat
       /\ calls is_hid_free (trace r) = 0%nat
     else
       trace r = [Store_status IPTS_HOST_STATUS_STOPPED; Call Resources_free;
                  Call Hid_free]
       /\ value r = 0
       /\ after r = snd (run Hid_free (snd (run Resources_free stopped)))
       /\ calls is_start (trace r) = 0%nat
       /\ calls is_resources_free (trace r) = 1%nat
       /\ calls is_hid_free (trace r) = 1%nat.
Proof.
  intros r stopped. subst r stopped. split; [reflexivity|].
  unfold ipts_receiver_handle_reset, bind, store_status, get; cbn.
  destruct (restart ipts); cbn; repeat split.
Qed.

(** ** Set-Mode *)

(** C6: when resource allocation fails while a Set-Mode response is
    handled, the handler logs, returns the allocation's error and issues no
    "set memory window" command; the dispatcher then calls the stop
    procedure exactly once for that response. *)
Theorem set_mode_allocation_failure (rsp : ipts_response) (ipts : context) :
  enumerators_distinct = true ->
  rsp_code rsp = IPTS_RSP_SET_MODE ->
  rsp_status rsp <> IPTS_STATUS_SENSOR_UNEXPECTED_RESET ->
  value (ipts_receiver_handle_error rsp ipts) = false ->
  fst (run Resources_alloc ipts) <> 0 ->
  let h := ipts_receiver_handle_set_mode ipts in
  let r := ipts_receiver_handle_response rsp ipts in
  value h = fst (run Resources_alloc ipts)
  /\ trace h = [Call Resources_alloc; Dev_err "Failed to allocate resources" []]
  /\ calls is_set_mem_window (trace h) = 0%nat
  /\ calls is_stop (trace r) = 1%nat
  /\ calls is_set_mem_window (trace r) = 0%nat.
Proof.
  intros Hd Hc Hu He Hf h r. subst h r.
  destruct (handle_error_run rsp ipts) as (Hv & _). cbv zeta in Hv.
  rewrite He in Hv. symmetry in Hv.
  rewrite (handle_response_routed rsp ipts Hu Hv).
  rewrite (route_set_mode rsp Hd Hc).
  assert (Hh : ipts_receiver_handle_set_mode ipts =
               {| value := fst (run Resources_alloc ipts);
                  after := snd (run Resources_alloc ipts);
                  trace := [Call Resources_alloc;
                            Dev_err "Failed to allocate resources" []] |}).
  { unfold ipts_receiver_handle_set_mode, bind, ipts_resources_alloc, call.
    cbn. apply Z.eqb_neq in Hf. now rewrite Hf. }
  rewrite Hh. cbn [value after trace].
  apply Z.eqb_neq in Hf. rewrite Hf.
  cbn [trace]. rewrite !calls_app.
  destruct (fst (run Control_stop _) =? 0); repeat split.
Qed.

(** ** Feedback *)

(** C7: in Singletouch mode handling a Feedback response issues exactly one
    command, "ready for data", and returns its result; in any other mode it
    calls nothing, stores nothing and returns 0. *)
Theorem handle_feedback_by_mode (rsp : ipts_response) (ipts : context) :
  let r := ipts_receiver_handle_feedback rsp ipts in
  (mode ipts = IPTS_MODE_SINGLETOUCH ->
     trace r = [Call Cmd_ready_for_data]
     /\ calls is_ready_for_data (trace r) = 1%nat
     /\ value r = fst (run Cmd_ready_for_data ipts)
     /\ after r = snd (run Cmd_ready_for_data ipts))
  /\ (mode ipts <> IPTS_MODE_SINGLETOUCH ->
       r = {| value := 0; after := ipts; trace := [] |}).
Proof.
  intros r. subst r.
  unfold ipts_receiver_handle_feedback, bind, get; cbn.
  split; intros Hm.
  - rewrite Hm, Z.eqb_refl. repeat split.
  - apply Z.eqb_neq in Hm. now rewrite Hm.
Qed.

(** ** Ready-For-Data and the doorbell *)

Lemma handle_ready_for_data_singletouch (ipts : context) :
  mode ipts = IPTS_MODE_SINGLETOUCH ->
  ipts_receiver_handle_ready_for_data ipts =
  {| value := 0;
     after := set_doorbell ((doorbell ipts + 1) mod 2 ^ 32) ipts;
     trace := [Store_doorbell ((doorbell ipts + 1) mod 2 ^ 32)] |}.
Proof.
  intros Hm.
  unfold ipts_receiver_handle_ready_for_data, bind, get.
  cbv beta zeta iota delta [value after trace].
  rewrite Hm, Z.eqb_refl. reflexivity.
Qed.

Lemma handle_ready_for_data_other_mode (ipts : context) :
  mode ipts <> IPTS_MODE_SINGLETOUCH ->
  ipts_receiver_handle_ready_for_data ipts =
  {| value := 0; after := ipts; trace := [] |}.
Proof.
  intros Hm. apply Z.eqb_neq in Hm.
  unfold ipts_receiver_handle_ready_for_data, bind, get.
  cbv beta zeta iota delta [value after trace].
  rewrite Hm. reflexivity.
Qed.

Lemma wrap_succ (d : Z) (n : nat) :
  ((d + 1) mod 2 ^ 32 + Z.of_nat n) mod 2 ^ 32
  = (d + Z.of_nat (S n)) mod 2 ^ 32.
Proof.
  rewrite Zplus_mod_idemp_l. f_equal. lia.
Qed.

(** [n] runs of the handler in Singletouch mode. *)
Lemma times_ready_for_data_singletouch (n : nat) :
  forall ipts : context,
    mode ipts = IPTS_MODE_SINGLETOUCH ->
    0 <= doorbell ipts < 2 ^ 32 ->
    let r := times n ipts_receiver_handle_ready_for_data ipts in
    doorbell (after r) = (doorbell ipts + Z.of_nat n) mod 2 ^ 32
    /\ mode (after r) = mode ipts
    /\ status (after r) = status ipts
    /\ value r = repeat 0 n.
Proof.
  induction n as [|n IH]; intros ipts Hm Hd r; subst r.
  - cbn [times ret after value repeat Z.of_nat].
    rewrite Z.add_0_r, Z.mod_small by assumption. auto.
  - cbn [times]. unfold bind, ret. cbn [value after trace].
    rewrite (handle_ready_for_data_singletouch ipts Hm).
    cbn [value after trace].
    set (c := set_doorbell ((doorbell ipts + 1) mod 2 ^ 32) ipts).
    destruct (IH c) as (Id & Im & Is & Iv).
    + exact Hm.
    + apply Z.mod_pos_bound. lia.
    + cbv zeta in Id, Im, Is, Iv.
      rewrite Id, Im, Is, Iv. unfold c.
      cbn [doorbell mode status set_doorbell repeat].
      rewrite wrap_succ. auto.
Qed.

(** Dispatching a successful Ready-For-Data response runs the handler and
    nothing more. *)
Lemma dispatch_ready_for_data (rsp : ipts_response) (ipts : context) :
  enumerators_distinct = true ->
  rsp_code rsp = IPTS_RSP_READY_FOR_DATA ->
  rsp_status rsp = IPTS_STATUS_SUCCESS ->
  mode ipts = IPTS_MODE_SINGLETOUCH ->
  after (ipts_receiver_handle_response rsp ipts)
  = set_doorbell ((doorbell ipts + 1) mod 2 ^ 32) ipts.
Proof.
  intros Hd Hc Hs Hm.
  rewrite handle_response_routed;
    [| rewrite Hs; now apply status_not_unexpected_reset
     | rewrite Hs; apply error_of_success ].
  rewrite (route_ready_for_data rsp Hd Hc).
  rewrite (handle_ready_for_data_singletouch ipts Hm).
  reflexivity.
Qed.

Lemma feed_ready_for_data_singletouch (rs : list ipts_response) :
  enumerators_distinct = true ->
  Forall (fun rsp => rsp_code rsp = IPTS_RSP_READY_FOR_DATA
                     /\ rsp_status rsp = IPTS_STATUS_SUCCESS) rs ->
  forall ipts : context,
    mode ipts = IPTS_MODE_SINGLETOUCH ->
    0 <= doorbell ipts < 2 ^ 32 ->
    doorbell (after (feed rs ipts))
    = (doorbell ipts + Z.of_nat (List.length rs)) mod 2 ^ 32.
Proof.
  intros Hd Hall. induction Hall as [|rsp rs [Hc Hs] _ IH]; intros ipts Hm Hr.
  - cbn [feed ret after List.length Z.of_nat].
    now rewrite Z.add_0_r, Z.mod_small.
  - cbn [feed List.length]. unfold bind. cbn [value after trace].
    rewrite (dispatch_ready_for_data rsp ipts Hd Hc Hs Hm).
    rewrite IH.
    + cbn [doorbell set_doorbell]. apply wrap_succ.
    + exact Hm.
    + apply Z.mod_pos_bound. lia.
Qed.

(** C8: in Singletouch mode, handling [n] Ready-For-Data responses in a row
    moves the u32 doorbell from [d] to [(d + n) mod 2^32], both when the
    handler is run [n] times and when [n] successful Ready-For-Data
    responses go through the dispatcher; every run returns 0. *)
Theorem doorbell_counts_ready_for_data (n : nat) (ipts : context) :
  mode ipts = IPTS_MODE_SINGLETOUCH ->
  0 <= doorbell ipts < 2 ^ 32 ->
  (let r := times n ipts_receiver_handle_ready_for_data ipts in
   doorbell (after r) = (doorbell ipts + Z.of_nat n) mod 2 ^ 32
   /\ value r = repeat 0 n)
  /\ (forall rs : list ipts_response,
        enumerators_distinct = true ->
        List.length rs = n ->
        Forall (fun rsp => rsp_code rsp = IPTS_RSP_READY_FOR_DATA
                           /\ rsp_status rsp = IPTS_STATUS_SUCCESS) rs ->
        doorbell (after (feed rs ipts))
        = (doorbell ipts + Z.of_nat n) mod 2 ^ 32).
Proof.
  intros Hm Hr. split.
  - destruct (times_ready_for_data_singletouch n ipts Hm Hr) as (Id & _ & _ & Iv).
    auto.
  - intros rs Hd <- Hall. now apply feed_ready_for_data_singletouch.
Qed.

(** C9: outside Singletouch mode the Ready-For-Data handler is idle: any
    number of runs returns 0 every time, stores nothing (the doorbell and
    the whole context stay as they were) and calls nothing. *)
Theorem ready_for_data_idle_outside_singletouch (n : nat) (ipts : context) :
  mode ipts <> IPTS_MODE_SINGLETOUCH ->
  times n ipts_receiver_handle_ready_for_data ipts
  = {| value := repeat 0 n; after := ipts; trace := [] |}.
Proof.
  intros Hm. induction n as [|n IH].
  - reflexivity.
  - cbn [times]. unfold bind, ret. cbn [value after trace].
    rewrite (handle_ready_for_data_other_mode ipts Hm).
    cbn [value after trace]. rewrite IH. reflexivity.
Qed.

(** ** Failure of a restart *)

(** C10: in the restart branch of the Reset handler the result of the start
    procedure is the handler's result, so when start fails the dispatcher
    logs and calls the stop procedure; on the unsolicited-reset path a
    failing restart procedure is only logged and stop is not called. *)
Theorem restart_failure_escalation
    (rsp rsp' : ipts_response) (ipts ipts' : context) :
  enumerators_distinct = true ->
  rsp_code rsp = IPTS_RSP_RESET_SENSOR ->
  rsp_status rsp <> IPTS_STATUS_SENSOR_UNEXPECTED_RESET ->
  value (ipts_receiver_handle_error rsp ipts) = false ->
  restart ipts = true ->
  fst (run Control_start (set_status IPTS_HOST_STATUS_STOPPED ipts)) <> 0 ->
  rsp_status rsp' = IPTS_STATUS_SENSOR_UNEXPECTED_RESET ->
  fst (run Control_restart ipts') <> 0 ->
  let r := ipts_receiver_handle_response rsp ipts in
  let r' := ipts_receiver_handle_response rsp' ipts' in
  value (ipts_receiver_handle_reset ipts)
  = fst (run Control_start (set_status IPTS_HOST_STATUS_STOPPED ipts))
  /\ calls is_stop (trace r) = 1%nat
  /\ trace r' = [Dev_info "Sensor was reset"; Call Control_restart;
                 Dev_err "Failed to restart IPTS" []]
  /\ calls is_stop (trace r') = 0%nat.
Proof.
  intros Hd Hc Hu He Hf Hs Hu' Hr r r'. subst r r'.
  assert (Hh : ipts_receiver_handle_reset ipts =
               {| value := fst (run Control_start
                                  (set_status IPTS_HOST_STATUS_STOPPED ipts));
                  after := snd (run Control_start
                                  (set_status IPTS_HOST_STATUS_STOPPED ipts));
                  trace := [Store_status IPTS_HOST_STATUS_STOPPED;
                            Msleep 1000; Call Control_start] |}).
  { unfold ipts_receiver_handle_reset, bind, store_status, get; cbn.
    now rewrite Hf. }
  destruct (handle_error_run rsp ipts) as (Hv & _). cbv zeta in Hv.
  rewrite He in Hv. symmetry in Hv.
  rewrite (handle_response_routed rsp ipts Hu Hv).
  rewrite (route_reset rsp Hd Hc), Hh. cbn [value after trace].
  apply Z.eqb_neq in Hs. rewrite Hs.
  cbn [trace]. rewrite !calls_app.
  destruct (unexpected_reset_short_circuits_run rsp' ipts' Hu') as (_ & Ht).
  rewrite Ht. apply Z.eqb_neq in Hr. rewrite Hr.
  destruct (fst (run Control_stop _) =? 0); repeat split.
Qed.

(** * Further properties of the dispatcher and the callback *)

Lemma reads_app (t u : list event) :
  reads (t ++ u) = (reads t + reads u)%nat.
Proof. unfold reads. now rewrite filter_app, length_app. Qed.

Lemma status_stores_app (t u : list event) :
  status_stores (t ++ u) = status_stores t ++ status_stores u.
Proof. unfold status_stores. apply flat_map_app. Qed.

Lemma doorbell_stores_app (t u : list event) :
  doorbell_stores (t ++ u) = doorbell_stores t ++ doorbell_stores u.
Proof. unfold doorbell_stores. apply flat_map_app. Qed.

(** Split on every condition left in the goal. *)
Ltac split_branches :=
  repeat (match goal with
          | |- context [if ?b then _ else _] => destruct b
          end; cbn).

(** Unfold the handlers down to the primitive stores and calls. *)
Ltac unfold_handlers :=
  unfold ipts_receiver_handle_get_device_info,
    ipts_receiver_handle_set_mode, ipts_receiver_handle_set_mem_window,
    ipts_receiver_handle_ready_for_data, ipts_receiver_handle_feedback,
    ipts_receiver_handle_reset, ipts_cmd_set_mode, ipts_cmd_set_mem_window,
    ipts_cmd_ready_for_data, ipts_resources_alloc, ipts_resources_free,
    ipts_hid_init, ipts_hid_free, ipts_control_start, call, store_status,
    store_doorbell, memcpy_device_info, complete_all, msleep, dev_err, emit,
    bind, get, ret;
  cbn.

(** A response classified as an error is logged and nothing else happens. *)
Lemma handle_response_fault (rsp : ipts_response) (ipts : context) :
  rsp_status rsp <> IPTS_STATUS_SENSOR_UNEXPECTED_RESET ->
  error_of (rsp_status rsp) (rsp_code rsp) (status ipts) = true ->
  ipts_receiver_handle_response rsp ipts =
  {| value := tt; after := ipts;
     trace := [Dev_err "Command 0x%08x failed: %d"
                       [rsp_code rsp; rsp_status rsp]] |}.
Proof.
  intros Hu He. unfold ipts_receiver_handle_response.
  apply Z.eqb_neq in Hu. rewrite Hu.
  unfold bind at 1.
  destruct (handle_error_run rsp ipts) as (Hv & Ha & Ht).
  cbv zeta in Hv, Ha, Ht. rewrite He in Hv. rewrite Hv in Ht.
  rewrite Hv, Ha, Ht. reflexivity.
Qed.

(** The opcode switch picks a handler by the first label that matches. *)
Lemma route_cases (rsp : ipts_response) :
  (rsp_code rsp = IPTS_RSP_GET_DEVICE_INFO
   /\ route rsp = ipts_receiver_handle_get_device_info rsp)
  \/ (rsp_code rsp = IPTS_RSP_SET_MODE
      /\ route rsp = ipts_receiver_handle_set_mode)
  \/ (rsp_code rsp = IPTS_RSP_SET_MEM_WINDOW
      /\ route rsp = ipts_receiver_handle_set_mem_window)
  \/ (rsp_code rsp = IPTS_RSP_READY_FOR_DATA
      /\ route rsp = ipts_receiver_handle_ready_for_data)
  \/ (rsp_code rsp = IPTS_RSP_FEEDBACK
      /\ route rsp = ipts_receiver_handle_feedback rsp)
  \/ (rsp_code rsp = IPTS_RSP_RESET_SENSOR
      /\ route rsp = ipts_receiver_handle_reset)
  \/ route rsp = ret 0.
Proof.
  unfold route.
  destruct (Z.eqb_spec (rsp_code rsp) IPTS_RSP_GET_DEVICE_INFO); [tauto|].
  destruct (Z.eqb_spec (rsp_code rsp) IPTS_RSP_SET_MODE); [tauto|].
  destruct (Z.eqb_spec (rsp_code rsp) IPTS_RSP_SET_MEM_WINDOW); [tauto|].
  destruct (Z.eqb_spec (rsp_code rsp) IPTS_RSP_READY_FOR_DATA); [tauto|].
  destruct (Z.eqb_spec (rsp_code rsp) IPTS_RSP_FEEDBACK); [tauto|].
  destruct (Z.eqb_spec (rsp_code rsp) IPTS_RSP_RESET_SENSOR); tauto.
Qed.

(** No handler reads the transport, logs at info level, or calls the
    restart or stop procedure. *)
Lemma route_events (rsp : ipts_response) (ipts : context) :
  forallb handler_event (trace (route rsp ipts)) = true.
Proof.
  destruct (route_cases rsp)
    as [[_ ->]|[[_ ->]|[[_ ->]|[[_ ->]|[[_ ->]|[[_ ->]| ->]]]]]];
    unfold_handlers; split_branches; reflexivity.
Qed.

Lemma handler_events_quiet (t : list event) :
  forallb handler_event t = true ->
  calls is_stop t = 0%nat /\ calls is_restart t = 0%nat /\ reads t = 0%nat.
Proof.
  induction t as [|e t IH]; [auto|].
  cbn [forallb]. rewrite andb_true_iff. intros [He Ht].
  destruct (IH Ht) as (I1 & I2 & I3).
  unfold calls, reads in *. cbn [filter].
  destruct e as [| | |[]| | | | |]; cbn in He |- *; try discriminate; auto.
Qed.

(** The four ways a dispatch can go. *)
Lemma dispatch_shape (rsp : ipts_response) (ipts : context) :
  let r := ipts_receiver_handle_response rsp ipts in
  let h := route rsp ipts in
  (rsp_status rsp = IPTS_STATUS_SENSOR_UNEXPECTED_RESET
   /\ trace r = [Dev_info "Sensor was reset"; Call Control_restart]
                ++ (if fst (run Control_restart ipts) =? 0 then []
                    else [Dev_err "Failed to restart IPTS" []]))
  \/ (rsp_status rsp <> IPTS_STATUS_SENSOR_UNEXPECTED_RESET
      /\ value (ipts_receiver_handle_error rsp ipts) = true
      /\ r = {| value := tt; after := ipts;
                trace := [Dev_err "Command 0x%08x failed: %d"
                                  [rsp_code rsp; rsp_status rsp]] |})
  \/ (rsp_status rsp <> IPTS_STATUS_SENSOR_UNEXPECTED_RESET
      /\ value (ipts_receiver_handle_error rsp ipts) = false
      /\ value h = 0
      /\ r = {| value := tt; after := after h; trace := trace h |})
  \/ (rsp_status rsp <> IPTS_STATUS_SENSOR_UNEXPECTED_RESET
      /\ value (ipts_receiver_handle_error rsp ipts) = false
      /\ value h <> 0
      /\ after r = snd (run Control_stop (after h))
      /\ trace r =
           trace h
           ++ [Dev_err "Error while handling response 0x%08x: %d"
                       [rsp_code rsp; value h];
               Call Control_stop]
           ++ (if fst (run Control_stop (after h)) =? 0 then []
               else [Dev_err "Failed to stop IPTS" []])).
Proof.
  intros r h. subst r h.
  destruct (handle_error_run rsp ipts) as (Hv & _). cbv zeta in Hv.
  destruct (Z.eq_dec (rsp_status rsp) IPTS_STATUS_SENSOR_UNEXPECTED_RESET)
    as [Hu|Hu].
  - left. split; [assumption|].
    now destruct (unexpected_reset_short_circuits_run rsp ipts Hu).
  - right.
    destruct (error_of (rsp_status rsp) (rsp_code rsp) (status ipts)) eqn:He.
    + left. rewrite (handle_response_fault rsp ipts Hu He). auto.
    + right. rewrite (handle_response_routed rsp ipts Hu He).
      destruct (Z.eqb_spec (value (route rsp ipts)) 0) as [Hz|Hz].
      * left. auto.
      * right. cbn [after trace]. auto.
Qed.

Lemma callback_discards_when_stopped_run (ipts : context) :
  status ipts = IPTS_HOST_STATUS_STOPPED ->
  ipts_receiver_callback ipts = {| value := tt; after := ipts; trace := [] |}.
Proof.
  intros Hs. unfold ipts_receiver_callback, bind, get; cbn.
  now rewrite Hs, Z.eqb_refl.
Qed.

(** The dispatcher never reads the transport. *)
Lemma dispatch_reads (rsp : ipts_response) (ipts : context) :
  reads (trace (ipts_receiver_handle_response rsp ipts)) = 0%nat.
Proof.
  destruct (handler_events_quiet _ (route_events rsp ipts)) as (_ & _ & Hr).
  destruct (dispatch_shape rsp ipts)
    as [(_ & Ht)|[(_ & _ & Hx)|[(_ & _ & _ & Hx)|(_ & _ & _ & _ & Ht)]]].
  - rewrite Ht. destruct (_ =? 0); reflexivity.
  - rewrite Hx. reflexivity.
  - rewrite Hx. exact Hr.
  - rewrite Ht, !reads_app, Hr. destruct (_ =? 0); reflexivity.
Qed.

(** X1: a response that is not an unsolicited reset and that the classifier
    reports as an error only produces the "command failed" log line: the
    context is left as it was, no handler runs and the stop procedure is not
    called. *)
Theorem protocol_fault_aborts_dispatch
    (rsp : ipts_response) (ipts : context) :
  rsp_status rsp <> IPTS_STATUS_SENSOR_UNEXPECTED_RESET ->
  value (ipts_receiver_handle_error rsp ipts) = true ->
  ipts_receiver_handle_response rsp ipts =
  {| value := tt; after := ipts;
     trace := [Dev_err "Command 0x%08x failed: %d"
                       [rsp_code rsp; rsp_status rsp]] |}.
Proof.
  intros Hu He.
  destruct (dispatch_shape rsp ipts)
    as [(Hx & _)|[(_ & _ & Hx)|[(_ & Hx & _)|(_ & Hx & _)]]];
    congruence.
Qed.

(** X2: a response with a non-error status whose opcode is none of the six
    handled ones is accepted and does nothing at all. *)
Theorem unknown_opcode_is_no_op (rsp : ipts_response) (ipts : context) :
  rsp_status rsp <> IPTS_STATUS_SENSOR_UNEXPECTED_RESET ->
  value (ipts_receiver_handle_error rsp ipts) = false ->
  rsp_code rsp <> IPTS_RSP_GET_DEVICE_INFO ->
  rsp_code rsp <> IPTS_RSP_SET_MODE ->
  rsp_code rsp <> IPTS_RSP_SET_MEM_WINDOW ->
  rsp_code rsp <> IPTS_RSP_READY_FOR_DATA ->
  rsp_code rsp <> IPTS_RSP_FEEDBACK ->
  rsp_code rsp <> IPTS_RSP_RESET_SENSOR ->
  ipts_receiver_handle_response rsp ipts =
  {| value := tt; after := ipts; trace := [] |}.
Proof.
  intros Hu He H1 H2 H3 H4 H5 H6.
  assert (Hr : route rsp = ret 0).
  { destruct (route_cases rsp)
      as [[? _]|[[? _]|[[? _]|[[? _]|[[? _]|[[? _]|Hr]]]]]];
      congruence. }
  destruct (dispatch_shape rsp ipts)
    as [(Hx & _)|[(_ & Hx & _)|[(_ & _ & _ & Hx)|(_ & _ & Hx & _)]]];
    try congruence.
  - rewrite Hx, Hr. reflexivity.
  - rewrite Hr in Hx. cbn in Hx. congruence.
Qed.

(** X3: when the host is not Stopped and the read from the transport
    returns zero or a negative value, the callback logs the result and
    returns; the dispatcher does not run, so the context is the one the read
    left behind. *)
Theorem callback_drops_failed_read (ipts : context) :
  status ipts <> IPTS_HOST_STATUS_STOPPED ->
  fst (fst (mei_recv ipts)) <= 0 ->
  ipts_receiver_callback ipts =
  {| value := tt; after := snd (mei_recv ipts);
     trace := [Recv; Dev_err "Error while reading response: %d"
                             [fst (fst (mei_recv ipts))]] |}.
Proof.
  intros Hs Hr. apply Z.eqb_neq in Hs. apply Z.leb_le in Hr.
  unfold ipts_receiver_callback, bind, get, mei_cldev_recv; cbn.
  rewrite Hs. cbn. rewrite Hr. reflexivity.
Qed.

(** X4: when the host is not Stopped and the read returns a positive byte
    count, the callback hands the frame that was read to the dispatcher, on
    the context the read left behind, and does nothing else. *)
Theorem callback_forwards_frame (ipts : context) :
  status ipts <> IPTS_HOST_STATUS_STOPPED ->
  0 < fst (fst (mei_recv ipts)) ->
  let d := ipts_receiver_handle_response
             (snd (fst (mei_recv ipts))) (snd (mei_recv ipts)) in
  ipts_receiver_callback ipts =
  {| value := tt; after := after d; trace := Recv :: trace d |}.
Proof.
  intros Hs Hr d. subst d.
  apply Z.eqb_neq in Hs. apply Z.leb_gt in Hr.
  unfold ipts_receiver_callback, bind, get, mei_cldev_recv; cbn.
  rewrite Hs. cbn. rewrite Hr.
  now destruct (value (ipts_receiver_handle_response _ _)).
Qed.

(** X5: one invocation of the callback reads at most one frame from the
    transport, and it reads none exactly when the host is Stopped. *)
Theorem callback_reads_at_most_one_frame (ipts : context) :
  let r := ipts_receiver_callback ipts in
  (reads (trace r) <= 1)%nat
  /\ (reads (trace r) = 0%nat <-> status ipts = IPTS_HOST_STATUS_STOPPED).
Proof.
  intros r. subst r.
  destruct (Z.eq_dec (status ipts) IPTS_HOST_STATUS_STOPPED) as [Hs|Hs].
  - rewrite (callback_discards_when_stopped_run ipts Hs). cbn. split; [lia|tauto].
  - assert (Hone : reads (trace (ipts_receiver_callback ipts)) = 1%nat).
    { destruct (Z.leb_spec (fst (fst (mei_recv ipts))) 0) as [Hr|Hr].
      - pose proof Hs as Hs'. apply Z.eqb_neq in Hs'. apply Z.leb_le in Hr.
        unfold ipts_receiver_callback, bind, get, mei_cldev_recv; cbn.
        rewrite Hs'. cbn. rewrite Hr. reflexivity.
      - pose proof Hs as Hs'. apply Z.eqb_neq in Hs'. apply Z.leb_gt in Hr.
        unfold ipts_receiver_callback, bind, get, mei_cldev_recv; cbn.
        rewrite Hs'. cbn. rewrite Hr.
        change (S (reads (trace (ipts_receiver_handle_response
                                   (snd (fst (mei_recv ipts)))
                                   (snd (mei_recv ipts))))) = 1%nat).
        now rewrite dispatch_reads. }
    rewrite Hone. split; [lia|]. split; [discriminate|contradiction].
Qed.

(** X6: for every response the dispatcher calls the stop procedure at most
    once, and it calls it exactly when the response is not an unsolicited
    reset, is not classified as an error, and the handler selected by its
    opcode returns a non-zero result.  The handlers themselves never call
    stop. *)
Theorem stop_only_on_handler_failure (rsp : ipts_response) (ipts : context) :
  let r := ipts_receiver_handle_response rsp ipts in
  (calls is_stop (trace r) <= 1)%nat
  /\ (calls is_stop (trace r) = 1%nat <->
      rsp_status rsp <> IPTS_STATUS_SENSOR_UNEXPECTED_RESET
      /\ value (ipts_receiver_handle_error rsp ipts) = false
      /\ value (route rsp ipts) <> 0).
Proof.
  intros r. subst r.
  destruct (handler_events_quiet _ (route_events rsp ipts)) as (Hq & _ & _).
  destruct (dispatch_shape rsp ipts)
    as [(Hu & Ht)|[(Hu & He & Hx)|[(Hu & He & Hz & Hx)|(Hu & He & Hz & _ & Ht)]]].
  - assert (Hc : calls is_stop (trace (ipts_receiver_handle_response rsp ipts))
                 = 0%nat)
      by (rewrite Ht; destruct (_ =? 0); reflexivity).
    rewrite Hc. split; [lia|]. split; [discriminate|tauto].
  - assert (Hc : calls is_stop (trace (ipts_receiver_handle_response rsp ipts))
                 = 0%nat) by (rewrite Hx; reflexivity).
    rewrite Hc. split; [lia|]. split; [discriminate|].
    intros (_ & Hf & _). congruence.
  - assert (Hc : calls is_stop (trace (ipts_receiver_handle_response rsp ipts))
                 = 0%nat) by (rewrite Hx; exact Hq).
    rewrite Hc. split; [lia|]. split; [discriminate|tauto].
  - assert (Hc : calls is_stop (trace (ipts_receiver_handle_response rsp ipts))
                 = 1%nat)
      by (rewrite Ht, !calls_app, Hq; destruct (_ =? 0); reflexivity).
    rewrite Hc. split; [lia|]. tauto.
Qed.

(** X7: for every response the dispatcher calls the restart procedure at
    most once, and it calls it exactly when the status is
    Sensor-unexpected-reset. *)
Theorem restart_only_on_unexpected_reset
    (rsp : ipts_response) (ipts : context) :
  let r := ipts_receiver_handle_response rsp ipts in
  (calls is_restart (trace r) <= 1)%nat
  /\ (calls is_restart (trace r) = 1%nat <->
      rsp_status rsp = IPTS_STATUS_SENSOR_UNEXPECTED_RESET).
Proof.
  intros r. subst r.
  destruct (handler_events_quiet _ (route_events rsp ipts)) as (_ & Hq & _).
  destruct (dispatch_shape rsp ipts)
    as [(Hu & Ht)|[(Hu & He & Hx)|[(Hu & He & Hz & Hx)|(Hu & He & Hz & _ & Ht)]]].
  - assert (Hc : calls is_restart
                   (trace (ipts_receiver_handle_response rsp ipts)) = 1%nat)
      by (rewrite Ht; destruct (_ =? 0); reflexivity).
    rewrite Hc. split; [lia|tauto].
  - assert (Hc : calls is_restart
                   (trace (ipts_receiver_handle_response rsp ipts)) = 0%nat)
      by (rewrite Hx; reflexivity).
    rewrite Hc. split; [lia|]. split; [discriminate|contradiction].
  - assert (Hc : calls is_restart
                   (trace (ipts_receiver_handle_response rsp ipts)) = 0%nat)
      by (rewrite Hx; exact Hq).
    rewrite Hc. split; [lia|]. split; [discriminate|contradiction].
  - assert (Hc : calls is_restart
                   (trace (ipts_receiver_handle_response rsp ipts)) = 0%nat)
      by (rewrite Ht, !calls_app, Hq; destruct (_ =? 0); reflexivity).
    rewrite Hc. split; [lia|]. split; [discriminate|contradiction].
Qed.

(** Only the reset handler calls the start procedure, and only with the
    restart flag set. *)
Lemma route_start (rsp : ipts_response) (ipts : context) :
  (calls is_start (trace (route rsp ipts)) <= 1)%nat
  /\ (calls is_start (trace (route rsp ipts)) = 1%nat ->
      rsp_code rsp = IPTS_RSP_RESET_SENSOR /\ restart ipts = true).
Proof.
  destruct (route_cases rsp)
    as [[_ ->]|[[_ ->]|[[_ ->]|[[_ ->]|[[_ ->]|[[Hc ->]| ->]]]]]];
    unfold_handlers;
    try (split_branches; (split; [lia|discriminate])).
  destruct (restart ipts) eqn:Hf; cbn; split; auto; discriminate.
Qed.

(** X8: for every response the dispatcher calls the start procedure at most
    once, and only for an accepted Reset response handled while the restart
    flag is set. *)
Theorem start_only_from_reset_with_flag
    (rsp : ipts_response) (ipts : context) :
  let r := ipts_receiver_handle_response rsp ipts in
  (calls is_start (trace r) <= 1)%nat
  /\ (calls is_start (trace r) = 1%nat ->
      rsp_code rsp = IPTS_RSP_RESET_SENSOR
      /\ restart ipts = true
      /\ rsp_status rsp <> IPTS_STATUS_SENSOR_UNEXPECTED_RESET
      /\ value (ipts_receiver_handle_error rsp ipts) = false).
Proof.
  intros r. subst r.
  destruct (route_start rsp ipts) as (Hb & Hone).
  destruct (dispatch_shape rsp ipts)
    as [(Hu & Ht)|[(Hu & He & Hx)|[(Hu & He & Hz & Hx)|(Hu & He & Hz & _ & Ht)]]].
  - assert (Hc : calls is_start
                   (trace (ipts_receiver_handle_response rsp ipts)) = 0%nat)
      by (rewrite Ht; destruct (_ =? 0); reflexivity).
    rewrite Hc. split; [lia|discriminate].
  - assert (Hc : calls is_start
                   (trace (ipts_receiver_handle_response rsp ipts)) = 0%nat)
      by (rewrite Hx; reflexivity).
    rewrite Hc. split; [lia|discriminate].
  - rewrite Hx. cbn [trace]. split; [assumption|].
    intros H1. destruct (Hone H1). auto.
  - assert (Hc : calls is_start
                   (trace (ipts_receiver_handle_response rsp ipts))
                 = calls is_start (trace (route rsp ipts))).
    { rewrite Ht, !calls_app. destruct (_ =? 0); cbn; lia. }
    rewrite Hc. split; [assumption|].
    intros H1. destruct (Hone H1). auto.
Qed.

(** X9: once a Reset response has been handled with the restart flag clear,
    and provided freeing the resources and the HID device leaves the host
    status alone, the host is Stopped and the next invocation of the
    callback discards its message without reading it. *)
Theorem reset_without_restart_silences_callback (ipts : context) :
  restart ipts = false ->
  keeps status Resources_free ->
  keeps status Hid_free ->
  let stopped := after (ipts_receiver_handle_reset ipts) in
  status stopped = IPTS_HOST_STATUS_STOPPED
  /\ ipts_receiver_callback stopped
     = {| value := tt; after := stopped; trace := [] |}.
Proof.
  intros Hf Kr Kh stopped.
  assert (Hs : status stopped = IPTS_HOST_STATUS_STOPPED).
  { subst stopped.
    unfold ipts_receiver_handle_reset, bind, store_status, get; cbn.
    rewrite Hf. cbn. now rewrite Kh, Kr. }
  split; [assumption|]. now apply callback_discards_when_stopped_run.
Qed.

Lemma route_feedback (rsp : ipts_response) :
  enumerators_distinct = true ->
  rsp_code rsp = IPTS_RSP_FEEDBACK ->
  route rsp = ipts_receiver_handle_feedback rsp.
Proof. intros Hd Hc. switch_on Hd Hc. Qed.

(** The classifier's answer as [error_of]. *)
Lemma handle_error_value (rsp : ipts_response) (ipts : context) :
  value (ipts_receiver_handle_error rsp ipts)
  = error_of (rsp_status rsp) (rsp_code rsp) (status ipts).
Proof. now destruct (handle_error_run rsp ipts). Qed.

(** X10: a Reset response that carries Sensor-disabled or
    Sensor-expected-reset, with the restart flag clear.  While the host is
    Stopping it is accepted and completes the shutdown: Stopped is stored,
    resources and HID device are freed, nothing is logged and stop is not
    called again.  In any other host state the same response is a protocol
    fault: one log line and no change. *)
Theorem sensor_disabled_depends_on_host_state
    (rsp : ipts_response) (ipts : context) :
  enumerators_distinct = true ->
  rsp_status rsp = IPTS_STATUS_SENSOR_DISABLED
  \/ rsp_status rsp = IPTS_STATUS_SENSOR_EXPECTED_RESET ->
  rsp_code rsp = IPTS_RSP_RESET_SENSOR ->
  restart ipts = false ->
  let r := ipts_receiver_handle_response rsp ipts in
  (status ipts = IPTS_HOST_STATUS_STOPPING ->
     r = {| value := tt;
            after := snd (run Hid_free
                            (snd (run Resources_free
                                    (set_status IPTS_HOST_STATUS_STOPPED
                                       ipts))));
            trace := [Store_status IPTS_HOST_STATUS_STOPPED;
                      Call Resources_free; Call Hid_free] |})
  /\ (status ipts <> IPTS_HOST_STATUS_STOPPING ->
       r = {| value := tt; after := ipts;
              trace := [Dev_err "Command 0x%08x failed: %d"
                                [rsp_code rsp; rsp_status rsp]] |}).
Proof.
  intros Hd Hs Hc Hf r. subst r.
  assert (Hu : rsp_status rsp <> IPTS_STATUS_SENSOR_UNEXPECTED_RESET).
  { pose proof Hd as Hd'. split_distinct Hd'. destruct Hs; congruence. }
  assert (He : error_of (rsp_status rsp) (rsp_code rsp) (status ipts)
               = negb (status ipts =? IPTS_HOST_STATUS_STOPPING)).
  { pose proof Hd as Hd'. split_distinct Hd'. unfold error_of.
    destruct Hs as [-> | ->]; decide_tests; cbn; congruence. }
  split; intros Hh.
  - assert (He' : error_of (rsp_status rsp) (rsp_code rsp) (status ipts)
                  = false) by (rewrite He, Hh, Z.eqb_refl; reflexivity).
    rewrite (handle_response_routed rsp ipts Hu He').
    rewrite (route_reset rsp Hd Hc).
    unfold ipts_receiver_handle_reset, bind, store_status, get; cbn.
    rewrite Hf. reflexivity.
  - apply Z.eqb_neq in Hh. rewrite Hh in He. cbn in He.
    now apply handle_response_fault.
Qed.

(** X11: Invalid-parameters is tolerated on a Feedback response and on no
    other.  On Feedback in Singletouch mode the "ready for data" command is
    still re-issued, exactly once, as the first action; on Feedback in
    another mode nothing happens; on any other opcode the response is a
    protocol fault, logged and dropped. *)
Theorem invalid_params_tolerated_for_feedback
    (rsp : ipts_response) (ipts : context) :
  enumerators_distinct = true ->
  rsp_status rsp = IPTS_STATUS_INVALID_PARAMS ->
  let r := ipts_receiver_handle_response rsp ipts in
  (rsp_code rsp = IPTS_RSP_FEEDBACK -> mode ipts = IPTS_MODE_SINGLETOUCH ->
     calls is_ready_for_data (trace r) = 1%nat
     /\ hd_error (trace r) = Some (Call Cmd_ready_for_data))
  /\ (rsp_code rsp = IPTS_RSP_FEEDBACK ->
       mode ipts <> IPTS_MODE_SINGLETOUCH ->
       r = {| value := tt; after := ipts; trace := [] |})
  /\ (rsp_code rsp <> IPTS_RSP_FEEDBACK ->
       r = {| value := tt; after := ipts;
              trace := [Dev_err "Command 0x%08x failed: %d"
                                [rsp_code rsp; rsp_status rsp]] |}).
Proof.
  intros Hd Hs r. subst r.
  assert (Hu : rsp_status rsp <> IPTS_STATUS_SENSOR_UNEXPECTED_RESET).
  { pose proof Hd as Hd'. split_distinct Hd'. congruence. }
  assert (He : error_of (rsp_status rsp) (rsp_code rsp) (status ipts)
               = negb (rsp_code rsp =? IPTS_RSP_FEEDBACK)).
  { pose proof Hd as Hd'. split_distinct Hd'. unfold error_of. rewrite Hs.
    decide_tests; cbn; congruence. }
  split; [|split].
  - intros Hc Hm.
    assert (He' : error_of (rsp_status rsp) (rsp_code rsp) (status ipts)
                  = false) by (rewrite He, Hc, Z.eqb_refl; reflexivity).
    rewrite (handle_response_routed rsp ipts Hu He').
    rewrite (route_feedback rsp Hd Hc).
    unfold ipts_receiver_handle_feedback, bind, get, ipts_cmd_ready_for_data,
      call. cbn. rewrite Hm, Z.eqb_refl. cbn.
    destruct (fst (run Cmd_ready_for_data ipts) =? 0); cbn [trace app hd_error];
      [now split|].
    split; [|reflexivity].
    change (Call Cmd_ready_for_data :: ?t) with ([Call Cmd_ready_for_data] ++ t).
    rewrite !calls_app.
    destruct (fst (run Control_stop _) =? 0); reflexivity.
  - intros Hc Hm.
    assert (He' : error_of (rsp_status rsp) (rsp_code rsp) (status ipts)
                  = false) by (rewrite He, Hc, Z.eqb_refl; reflexivity).
    rewrite (handle_response_routed rsp ipts Hu He').
    rewrite (route_feedback rsp Hd Hc).
    apply Z.eqb_neq in Hm.
    unfold ipts_receiver_handle_feedback, bind, get. cbn. rewrite Hm.
    reflexivity.
  - intros Hc. apply Z.eqb_neq in Hc. rewrite Hc in He. cbn in He.
    now apply handle_response_fault.
Qed.

(** X12: when the "ready for data" command fails at the end of the
    Set-Mem-Window handler, the host status has already been stored as
    Started and the readiness condition completed; the dispatcher then logs
    the failure with opcode and result and calls the stop procedure once,
    and the final context is the one stop leaves. *)
Theorem set_mem_window_command_failure_stops
    (rsp : ipts_response) (ipts : context) :
  enumerators_distinct = true ->
  rsp_code rsp = IPTS_RSP_SET_MEM_WINDOW ->
  rsp_status rsp <> IPTS_STATUS_SENSOR_UNEXPECTED_RESET ->
  value (ipts_receiver_handle_error rsp ipts) = false ->
  let ready :=
    set_on_device_ready true
      (snd (run Hid_init (set_status IPTS_HOST_STATUS_STARTED ipts))) in
  let failed := run Cmd_ready_for_data ready in
  fst failed <> 0 ->
  let r := ipts_receiver_handle_response rsp ipts in
  trace r =
    [Store_status IPTS_HOST_STATUS_STARTED; Call Hid_init; Complete_all;
     Call Cmd_ready_for_data;
     Dev_err "Error while handling response 0x%08x: %d"
             [rsp_code rsp; fst failed];
     Call Control_stop]
    ++ (if fst (run Control_stop (snd failed)) =? 0 then []
        else [Dev_err "Failed to stop IPTS" []])
  /\ after r = snd (run Control_stop (snd failed))
  /\ calls is_stop (trace r) = 1%nat.
Proof.
  intros Hd Hc Hu He ready failed Hf r. subst r failed ready.
  rewrite handle_error_value in He.
  rewrite (handle_response_routed rsp ipts Hu He).
  rewrite (route_set_mem_window rsp Hd Hc), handle_set_mem_window_run.
  cbn [value after trace]. apply Z.eqb_neq in Hf. rewrite Hf.
  cbn [trace after app]. repeat split.
  destruct (fst (run Control_stop _) =? 0); reflexivity.
Qed.

(** X13: when the allocation succeeds while a Set-Mode response is handled,
    the handler issues the "set memory window" command on the context the
    allocation left and returns the command's result; through the
    dispatcher that is one allocation followed by one command, and nothing
    more if the command is accepted. *)
Theorem set_mode_success_issues_mem_window
    (rsp : ipts_response) (ipts : context) :
  enumerators_distinct = true ->
  rsp_code rsp = IPTS_RSP_SET_MODE ->
  rsp_status rsp <> IPTS_STATUS_SENSOR_UNEXPECTED_RESET ->
  value (ipts_receiver_handle_error rsp ipts) = false ->
  fst (run Resources_alloc ipts) = 0 ->
  let sent := run Cmd_set_mem_window (snd (run Resources_alloc ipts)) in
  let h := ipts_receiver_handle_set_mode ipts in
  let r := ipts_receiver_handle_response rsp ipts in
  h = {| value := fst sent; after := snd sent;
         trace := [Call Resources_alloc; Call Cmd_set_mem_window] |}
  /\ calls is_resources_alloc (trace r) = 1%nat
  /\ calls is_set_mem_window (trace r) = 1%nat
  /\ (fst sent = 0 ->
      r = {| value := tt; after := snd sent;
             trace := [Call Resources_alloc; Call Cmd_set_mem_window] |}).
Proof.
  intros Hd Hc Hu He Ha sent h r. subst sent h r.
  assert (Hh : ipts_receiver_handle_set_mode ipts =
               {| value := fst (run Cmd_set_mem_window
                                  (snd (run Resources_alloc ipts)));
                  after := snd (run Cmd_set_mem_window
                                  (snd (run Resources_alloc ipts)));
                  trace := [Call Resources_alloc; Call Cmd_set_mem_window] |}).
  { unfold ipts_receiver_handle_set_mode, bind, ipts_resources_alloc,
      ipts_cmd_set_mem_window, call. cbn. rewrite Ha. reflexivity. }
  rewrite handle_error_value in He.
  rewrite (handle_response_routed rsp ipts Hu He).
  rewrite (route_set_mode rsp Hd Hc), Hh. cbn [value after trace].
  split; [reflexivity|].
  destruct (fst (run Cmd_set_mem_window _) =? 0) eqn:Hz.
  - cbn [trace]. repeat split.
  - cbn [trace]. rewrite !calls_app.
    destruct (fst (run Control_stop _) =? 0); repeat split;
      intros Hz'; rewrite Hz' in Hz; discriminate.
Qed.

(** Stores to the host status made by the handlers. *)
Lemma route_status_stores (rsp : ipts_response) (ipts : context) :
  let ss := status_stores (trace (route rsp ipts)) in
  ss = []
  \/ (ss = [IPTS_HOST_STATUS_STARTED]
      /\ rsp_code rsp = IPTS_RSP_SET_MEM_WINDOW)
  \/ (ss = [IPTS_HOST_STATUS_STOPPED]
      /\ rsp_code rsp = IPTS_RSP_RESET_SENSOR).
Proof.
  destruct (route_cases rsp)
    as [[_ ->]|[[_ ->]|[[Hc ->]|[[_ ->]|[[_ ->]|[[Hc ->]| ->]]]]]];
    unfold_handlers; split_branches; auto.
Qed.

(** X14: while dispatching one response the receiver stores into the host
    status at most once; the value is Started, and then the opcode is
    Set-Mem-Window, or Stopped, and then the opcode is Reset.  Hence, when
    the Stopping enumerator differs from Started and from Stopped, the
    receiver never stores Stopping itself. *)
Theorem status_stores_of_dispatch (rsp : ipts_response) (ipts : context) :
  let ss := status_stores (trace (ipts_receiver_handle_response rsp ipts)) in
  (ss = []
   \/ (ss = [IPTS_HOST_STATUS_STARTED]
       /\ rsp_code rsp = IPTS_RSP_SET_MEM_WINDOW)
   \/ (ss = [IPTS_HOST_STATUS_STOPPED]
       /\ rsp_code rsp = IPTS_RSP_RESET_SENSOR))
  /\ (IPTS_HOST_STATUS_STOPPING <> IPTS_HOST_STATUS_STARTED ->
      IPTS_HOST_STATUS_STOPPING <> IPTS_HOST_STATUS_STOPPED ->
      ~ In IPTS_HOST_STATUS_STOPPING ss).
Proof.
  intros ss.
  assert (Hshape : ss = []
                   \/ (ss = [IPTS_HOST_STATUS_STARTED]
                       /\ rsp_code rsp = IPTS_RSP_SET_MEM_WINDOW)
                   \/ (ss = [IPTS_HOST_STATUS_STOPPED]
                       /\ rsp_code rsp = IPTS_RSP_RESET_SENSOR)).
  { subst ss.
    pose proof (route_status_stores rsp ipts) as Hr. cbv zeta in Hr.
    destruct (dispatch_shape rsp ipts)
      as [(_ & Ht)|[(_ & _ & Hx)|[(_ & _ & _ & Hx)|(_ & _ & _ & _ & Ht)]]].
    - left. rewrite Ht. destruct (_ =? 0); reflexivity.
    - left. rewrite Hx. reflexivity.
    - rewrite Hx. exact Hr.
    - assert (Hs : status_stores
                     (trace (ipts_receiver_handle_response rsp ipts))
                   = status_stores (trace (route rsp ipts))).
      { rewrite Ht, !status_stores_app.
        destruct (_ =? 0); cbn; now rewrite app_nil_r. }
      rewrite Hs. exact Hr. }
  split; [exact Hshape|].
  intros H1 H2 Hin.
  destruct Hshape as [Hs|[(Hs & _)|(Hs & _)]]; rewrite Hs in Hin;
    cbn in Hin; intuition congruence.
Qed.

(** Stores to the doorbell made by the handlers. *)
Lemma route_doorbell_stores (rsp : ipts_response) (ipts : context) :
  let ds := doorbell_stores (trace (route rsp ipts)) in
  ds = []
  \/ (ds = [(doorbell ipts + 1) mod 2 ^ 32]
      /\ rsp_code rsp = IPTS_RSP_READY_FOR_DATA
      /\ mode ipts = IPTS_MODE_SINGLETOUCH).
Proof.
  destruct (route_cases rsp)
    as [[_ ->]|[[_ ->]|[[_ ->]|[[Hc ->]|[[_ ->]|[[_ ->]| ->]]]]]];
    try (left; unfold_handlers; split_branches; reflexivity).
  destruct (Z.eq_dec (mode ipts) IPTS_MODE_SINGLETOUCH) as [Hm|Hm].
  - right. rewrite (handle_ready_for_data_singletouch ipts Hm). auto.
  - left. rewrite (handle_ready_for_data_other_mode ipts Hm). reflexivity.
Qed.

(** X15: while dispatching one response the receiver writes the doorbell at
    most once, and only for a Ready-For-Data opcode in Singletouch mode; the
    value written is the old value plus one reduced to 32 bits, so it is
    always a u32. *)
Theorem doorbell_written_only_for_ready_for_data
    (rsp : ipts_response) (ipts : context) :
  let ds := doorbell_stores
              (trace (ipts_receiver_handle_response rsp ipts)) in
  ds = []
  \/ (ds = [(doorbell ipts + 1) mod 2 ^ 32]
      /\ 0 <= (doorbell ipts + 1) mod 2 ^ 32 < 2 ^ 32
      /\ rsp_code rsp = IPTS_RSP_READY_FOR_DATA
      /\ mode ipts = IPTS_MODE_SINGLETOUCH).
Proof.
  intros ds. subst ds.
  assert (Hr : doorbell_stores (trace (route rsp ipts)) = []
               \/ (doorbell_stores (trace (route rsp ipts))
                   = [(doorbell ipts + 1) mod 2 ^ 32]
                   /\ 0 <= (doorbell ipts + 1) mod 2 ^ 32 < 2 ^ 32
                   /\ rsp_code rsp = IPTS_RSP_READY_FOR_DATA
                   /\ mode ipts = IPTS_MODE_SINGLETOUCH)).
  { destruct (route_doorbell_stores rsp ipts) as [Hn|(Hs & Hc & Hm)];
      [now left|right].
    repeat split; try assumption; apply Z.mod_pos_bound; lia. }
  destruct (dispatch_shape rsp ipts)
    as [(_ & Ht)|[(_ & _ & Hx)|[(_ & _ & _ & Hx)|(_ & _ & _ & _ & Ht)]]].
  - left. rewrite Ht. destruct (_ =? 0); reflexivity.
  - left. rewrite Hx. reflexivity.
  - rewrite Hx. exact Hr.
  - assert (Hs : doorbell_stores
                   (trace (ipts_receiver_handle_response rsp ipts))
                 = doorbell_stores (trace (route rsp ipts))).
    { rewrite Ht, !doorbell_stores_app.
      destruct (_ =? 0); cbn; now rewrite app_nil_r. }
    rewrite Hs. exact Hr.
Qed.

(** X16: the Get-Device-Info handler copies the first
    sizeof(device_info) bytes of the payload into the context, which gives a
    full device info when the payload is at least that long, then issues
    "set mode" with the mode already configured in the context, on the
    context holding the new device info, and returns the command's
    result. *)
Theorem get_device_info_stores_prefix_and_sets_mode
    (rsp : ipts_response) (ipts : context) :
  (sizeof_device_info <= List.length (rsp_payload rsp))%nat ->
  let info := firstn sizeof_device_info (rsp_payload rsp) in
  let sent := run (Cmd_set_mode (mode ipts)) (set_device_info info ipts) in
  let r := ipts_receiver_handle_get_device_info rsp ipts in
  List.length info = sizeof_device_info
  /\ info ++ skipn sizeof_device_info (rsp_payload rsp) = rsp_payload rsp
  /\ trace r = [Store_device_info info; Call (Cmd_set_mode (mode ipts))]
  /\ value r = fst sent
  /\ after r = snd sent.
Proof.
  intros Hl info sent r. subst info sent r.
  split; [apply firstn_length_le; assumption|].
  split; [apply firstn_skipn|].
  repeat split.
Qed.

(** X17: the classifier looks at the host status only for Sensor-disabled
    and Sensor-expected-reset, and at the opcode only for
    Invalid-parameters: for any other status its answer is the same in every
    host state, respectively for every opcode. *)
Theorem classifier_context_dependence
    (rsp rsp' : ipts_response) (ipts ipts' : context) :
  rsp_status rsp' = rsp_status rsp ->
  (rsp_status rsp <> IPTS_STATUS_SENSOR_DISABLED ->
   rsp_status rsp <> IPTS_STATUS_SENSOR_EXPECTED_RESET ->
   value (ipts_receiver_handle_error rsp ipts)
   = value (ipts_receiver_handle_error rsp ipts'))
  /\ (rsp_status rsp <> IPTS_STATUS_INVALID_PARAMS ->
      value (ipts_receiver_handle_error rsp ipts)
      = value (ipts_receiver_handle_error rsp' ipts)).
Proof.
  intros Hs. rewrite !handle_error_value, Hs. unfold error_of.
  split.
  - intros H1 H2. apply Z.eqb_neq in H1, H2. rewrite H1, H2. reflexivity.
  - intros H1. apply Z.eqb_neq in H1. rewrite H1. reflexivity.
Qed.

End Properties.

(** * Concrete runs

    The theorems applied on the sample instance. *)

#[local] Existing Instance sample_headers.

(** Two concrete integers differ. *)
Ltac differ := vm_compute; discriminate.

(** A started host in Singletouch mode with a Ready-For-Data frame pending:
    the callback reads the frame and rings the doorbell. *)
Example callback_rings_doorbell :
  let ipts := {| status := 1; mode := 0; restart := false; device_info := [];
                 doorbell := 7; on_device_ready := true;
                 rest := [sample_response 0x80000005 0] |} in
  let r := ipts_receiver_callback (K := scripted nothing_fails) ipts in
  trace r = [Recv; Store_doorbell 8]
  /\ doorbell (after r) = 8 /\ rest (after r) = [].
Proof. vm_compute. auto. Qed.

(** A read that yields nothing is logged and dropped. *)
Example callback_read_failure :
  trace (ipts_receiver_callback (K := scripted nothing_fails)
           (sample_context 1 0 false 7))
  = [Recv; Dev_err "Error while reading response: %d" [0]].
Proof. reflexivity. Qed.

(** The bring-up sequence, call by call. *)
Example bring_up_trace :
  trace (feed (K := scripted nothing_fails)
           [sample_response 0x80000001 0; sample_response 0x80000002 0;
            sample_response 0x80000003 0]
           (sample_context 0 1 false 0))
  = [Store_device_info [x2a; x00; x01; x02]%byte; Call (Cmd_set_mode 1);
     Call Resources_alloc; Call Cmd_set_mem_window;
     Store_status 1; Call Hid_init; Complete_all; Call Cmd_ready_for_data].
Proof. reflexivity. Qed.

(** A status outside the table (8) is a protocol fault: logged, no handler. *)
Example protocol_fault_is_logged :
  ipts_receiver_handle_response (K := scripted nothing_fails)
    (sample_response 0x80000003 8) (sample_context 0 1 false 0)
  = {| value := tt; after := sample_context 0 1 false 0;
       trace := [Dev_err "Command 0x%08x failed: %d" [0x80000003; 8]] |}.
Proof. reflexivity. Qed.

(** Sensor-disabled (9) on a Reset response while the host is Stopping is
    not an error: the reset handler runs its shutdown branch. *)
Example reset_while_stopping :
  trace (ipts_receiver_handle_response (K := scripted nothing_fails)
           (sample_response 0x8000000b 9) (sample_context 2 1 false 0))
  = [Store_status 3; Call Resources_free; Call Hid_free].
Proof. reflexivity. Qed.

(** An opcode without a handler is accepted and does nothing. *)
Example unknown_opcode_is_ignored :
  ipts_receiver_handle_response (K := scripted nothing_fails)
    (sample_response 0x80000004 0) (sample_context 1 1 false 0)
  = {| value := tt; after := sample_context 1 1 false 0; trace := [] |}.
Proof. reflexivity. Qed.

(** Invalid-parameters on a Feedback response, host Started: no error. *)
Lemma handle_error_decision_table_witness :
  enumerators_distinct = true
  /\ spec_decision_table 1 0x80000006 1 false.
Proof.
  split; [reflexivity|].
  exact (proj1 (handle_error_decision_table
                  (sample_response 0x80000006 1)
                  (sample_context 1 1 false 0) eq_refl)).
Defined.

(** An unsolicited reset reported on a Get-Device-Info response, with a
    restart procedure that fails. *)
Lemma unexpected_reset_short_circuits_witness :
  rsp_status (sample_response 0x80000001 12)
  = IPTS_STATUS_SENSOR_UNEXPECTED_RESET
  /\ trace (ipts_receiver_handle_response (K := scripted is_restart)
              (sample_response 0x80000001 12) (sample_context 1 1 false 0))
     = [Dev_info "Sensor was reset"; Call Control_restart;
        Dev_err "Failed to restart IPTS" []].
Proof.
  split; [reflexivity|].
  exact (proj1 (proj2 (unexpected_reset_short_circuits
                         (K := scripted is_restart)
                         (sample_response 0x80000001 12)
                         (sample_context 1 1 false 0) eq_refl))).
Defined.

Lemma callback_discards_when_stopped_witness :
  status stopped_with_frame = IPTS_HOST_STATUS_STOPPED
  /\ ipts_receiver_callback (K := scripted nothing_fails) stopped_with_frame
     = {| value := tt; after := stopped_with_frame; trace := [] |}.
Proof.
  split; [reflexivity|].
  exact (callback_discards_when_stopped (K := scripted nothing_fails)
           stopped_with_frame eq_refl).
Defined.



(** A Set-Mode response when the allocation of resources fails. *)
Lemma set_mode_allocation_failure_witness :
  enumerators_distinct = true
  /\ fst (run (collaborators := scripted fails_alloc_start_restart)
            Resources_alloc (sample_context 0 1 false 0)) <> 0
  /\ (let r := ipts_receiver_handle_response
                 (K := scripted fails_alloc_start_restart)
                 (sample_response 0x80000002 0) (sample_context 0 1 false 0) in
      calls is_stop (trace r) = 1%nat
      /\ calls is_set_mem_window (trace r) = 0%nat).
Proof.
  assert (Hu : rsp_status (sample_response 0x80000002 0)
               <> IPTS_STATUS_SENSOR_UNEXPECTED_RESET) by differ.
  assert (Hf : fst (run (collaborators := scripted fails_alloc_start_restart)
                      Resources_alloc (sample_context 0 1 false 0)) <> 0)
    by differ.
  split; [reflexivity|]. split; [exact Hf|].
  exact (proj2 (proj2 (proj2
           (set_mode_allocation_failure
              (K := scripted fails_alloc_start_restart)
              (sample_response 0x80000002 0) (sample_context 0 1 false 0)
              eq_refl eq_refl Hu eq_refl Hf)))).
Defined.

(** A Feedback response in Singletouch mode (mode 0) and in mode 1. *)
Lemma handle_feedback_by_mode_witness :
  (mode (sample_context 1 0 false 7) = IPTS_MODE_SINGLETOUCH
   /\ trace (ipts_receiver_handle_feedback (K := scripted nothing_fails)
               (sample_response 0x80000006 0) (sample_context 1 0 false 7))
      = [Call Cmd_ready_for_data])
  /\ (mode (sample_context 1 1 false 7) <> IPTS_MODE_SINGLETOUCH
      /\ ipts_receiver_handle_feedback (K := scripted nothing_fails)
           (sample_response 0x80000006 0) (sample_context 1 1 false 7)
         = {| value := 0; after := sample_context 1 1 false 7; trace := [] |}).
Proof.
  assert (Hm : mode (sample_context 1 1 false 7) <> IPTS_MODE_SINGLETOUCH)
    by differ.
  split; split; [reflexivity | | exact Hm | ].
  - exact (proj1 (proj1 (handle_feedback_by_mode (K := scripted nothing_fails)
                           (sample_response 0x80000006 0)
                           (sample_context 1 0 false 7))
                   eq_refl)).
  - exact (proj2 (handle_feedback_by_mode (K := scripted nothing_fails)
                    (sample_response 0x80000006 0)
                    (sample_context 1 1 false 7))
             Hm).
Defined.

(** Three Ready-For-Data responses with the doorbell at 2^32 - 1: the
    register wraps to 2. *)
Lemma doorbell_counts_ready_for_data_witness :
  mode (sample_context 1 0 false 4294967295) = IPTS_MODE_SINGLETOUCH
  /\ 0 <= doorbell (sample_context 1 0 false 4294967295) < 2 ^ 32
  /\ doorbell
       (after (times 3 ipts_receiver_handle_ready_for_data
                 (sample_context 1 0 false 4294967295)))
     = 2.
Proof.
  assert (Hr : 0 <= doorbell (sample_context 1 0 false 4294967295) < 2 ^ 32)
    by (cbn; lia).
  split; [reflexivity|]. split; [exact Hr|].
  exact (proj1 (proj1 (doorbell_counts_ready_for_data
                         (K := scripted nothing_fails) 3
                         (sample_context 1 0 false 4294967295)
                         eq_refl Hr))).
Defined.

(** Three Ready-For-Data responses in mode 1: nothing happens. *)
Lemma ready_for_data_idle_outside_singletouch_witness :
  mode (sample_context 1 1 false 41) <> IPTS_MODE_SINGLETOUCH
  /\ times 3 ipts_receiver_handle_ready_for_data (sample_context 1 1 false 41)
     = {| value := [0; 0; 0]; after := sample_context 1 1 false 41;
          trace := [] |}.
Proof.
  assert (Hm : mode (sample_context 1 1 false 41) <> IPTS_MODE_SINGLETOUCH)
    by differ.
  split; [exact Hm|].
  exact (ready_for_data_idle_outside_singletouch 3
           (sample_context 1 1 false 41) Hm).
Defined.

(** A Reset response with the restart flag set and a start procedure that
    fails, against an unsolicited reset with a restart procedure that
    fails. *)
Lemma restart_failure_escalation_witness :
  enumerators_distinct = true
  /\ restart (sample_context 2 1 true 0) = true
  /\ fst (run (collaborators := scripted fails_alloc_start_restart)
            Control_start
            (set_status IPTS_HOST_STATUS_STOPPED (sample_context 2 1 true 0)))
     <> 0
  /\ fst (run (collaborators := scripted fails_alloc_start_restart)
            Control_restart (sample_context 1 1 false 0)) <> 0
  /\ calls is_stop
       (trace (ipts_receiver_handle_response
                 (K := scripted fails_alloc_start_restart)
                 (sample_response 0x8000000b 0) (sample_context 2 1 true 0)))
     = 1%nat
  /\ calls is_stop
       (trace (ipts_receiver_handle_response
                 (K := scripted fails_alloc_start_restart)
                 (sample_response 0x80000005 12) (sample_context 1 1 false 0)))
     = 0%nat.
Proof.
  assert (Hu : rsp_status (sample_response 0x8000000b 0)
               <> IPTS_STATUS_SENSOR_UNEXPECTED_RESET) by differ.
  assert (Hs : fst (run (collaborators := scripted fails_alloc_start_restart)
                      Control_start
                      (set_status IPTS_HOST_STATUS_STOPPED
                         (sample_context 2 1 true 0))) <> 0) by differ.
  assert (Hr : fst (run (collaborators := scripted fails_alloc_start_restart)
                      Control_restart (sample_context 1 1 false 0)) <> 0)
    by differ.
  split; [reflexivity|]. split; [reflexivity|].
  split; [exact Hs|]. split; [exact Hr|].
  pose proof (restart_failure_escalation
                (K := scripted fails_alloc_start_restart)
                (sample_response 0x8000000b 0) (sample_response 0x80000005 12)
                (sample_context 2 1 true 0) (sample_context 1 1 false 0)
                eq_refl eq_refl Hu eq_refl eq_refl Hs eq_refl Hr) as W.
  exact (conj (proj1 (proj2 W)) (proj2 (proj2 (proj2 W)))).
Defined.

(** Status 8 on a Set-Mem-Window response: a protocol fault. *)
Lemma protocol_fault_aborts_dispatch_witness :
  rsp_status (sample_response 0x80000003 8)
  <> IPTS_STATUS_SENSOR_UNEXPECTED_RESET
  /\ value (ipts_receiver_handle_error (sample_response 0x80000003 8)
              (sample_context 1 1 false 0)) = true
  /\ ipts_receiver_handle_response (K := scripted nothing_fails)
       (sample_response 0x80000003 8) (sample_context 1 1 false 0)
     = {| value := tt; after := sample_context 1 1 false 0;
          trace := [Dev_err "Command 0x%08x failed: %d" [0x80000003; 8]] |}.
Proof.
  assert (Hu : rsp_status (sample_response 0x80000003 8)
               <> IPTS_STATUS_SENSOR_UNEXPECTED_RESET) by differ.
  split; [exact Hu|]. split; [reflexivity|].
  exact (protocol_fault_aborts_dispatch (K := scripted nothing_fails)
           (sample_response 0x80000003 8) (sample_context 1 1 false 0)
           Hu eq_refl).
Defined.

(** Opcode 0x80000004 has no handler. *)
Lemma unknown_opcode_is_no_op_witness :
  rsp_status (sample_response 0x80000004 10)
  <> IPTS_STATUS_SENSOR_UNEXPECTED_RESET
  /\ value (ipts_receiver_handle_error (sample_response 0x80000004 10)
              (sample_context 1 0 false 0)) = false
  /\ ipts_receiver_handle_response (K := scripted nothing_fails)
       (sample_response 0x80000004 10) (sample_context 1 0 false 0)
     = {| value := tt; after := sample_context 1 0 false 0; trace := [] |}.
Proof.
  assert (Hu : rsp_status (sample_response 0x80000004 10)
               <> IPTS_STATUS_SENSOR_UNEXPECTED_RESET) by differ.
  assert (H1 : rsp_code (sample_response 0x80000004 10)
               <> IPTS_RSP_GET_DEVICE_INFO) by differ.
  assert (H2 : rsp_code (sample_response 0x80000004 10)
               <> IPTS_RSP_SET_MODE) by differ.
  assert (H3 : rsp_code (sample_response 0x80000004 10)
               <> IPTS_RSP_SET_MEM_WINDOW) by differ.
  assert (H4 : rsp_code (sample_response 0x80000004 10)
               <> IPTS_RSP_READY_FOR_DATA) by differ.
  assert (H5 : rsp_code (sample_response 0x80000004 10)
               <> IPTS_RSP_FEEDBACK) by differ.
  assert (H6 : rsp_code (sample_response 0x80000004 10)
               <> IPTS_RSP_RESET_SENSOR) by differ.
  split; [exact Hu|]. split; [reflexivity|].
  exact (unknown_opcode_is_no_op (K := scripted nothing_fails)
           (sample_response 0x80000004 10) (sample_context 1 0 false 0)
           Hu eq_refl H1 H2 H3 H4 H5 H6).
Defined.

(** A started host with nothing pending: the read returns 0. *)
Lemma callback_drops_failed_read_witness :
  status (sample_context 1 0 false 7) <> IPTS_HOST_STATUS_STOPPED
  /\ fst (fst (mei_recv (collaborators := scripted nothing_fails)
                 (sample_context 1 0 false 7))) <= 0
  /\ ipts_receiver_callback (K := scripted nothing_fails)
       (sample_context 1 0 false 7)
     = {| value := tt; after := sample_context 1 0 false 7;
          trace := [Recv; Dev_err "Error while reading response: %d" [0]] |}.
Proof.
  assert (Hs : status (sample_context 1 0 false 7)
               <> IPTS_HOST_STATUS_STOPPED) by differ.
  assert (Hr : fst (fst (mei_recv (collaborators := scripted nothing_fails)
                           (sample_context 1 0 false 7))) <= 0)
    by (cbn; lia).
  split; [exact Hs|]. split; [exact Hr|].
  exact (callback_drops_failed_read (K := scripted nothing_fails)
           (sample_context 1 0 false 7) Hs Hr).
Defined.

(** A started host with a tolerated Feedback frame pending: the frame is
    read and dispatched, the second frame stays queued. *)
Lemma callback_forwards_frame_witness :
  status started_with_frames <> IPTS_HOST_STATUS_STOPPED
  /\ 0 < fst (fst (mei_recv (collaborators := scripted nothing_fails)
                     started_with_frames))
  /\ (let r := ipts_receiver_callback (K := scripted nothing_fails)
                 started_with_frames in
      trace r = [Recv]
      /\ rest (after r) = [sample_response 0x80000002 0]).
Proof.
  assert (Hs : status started_with_frames <> IPTS_HOST_STATUS_STOPPED)
    by differ.
  assert (Hr : 0 < fst (fst (mei_recv (collaborators := scripted nothing_fails)
                               started_with_frames)))
    by (cbn; lia).
  split; [exact Hs|]. split; [exact Hr|].
  rewrite (callback_forwards_frame (K := scripted nothing_fails)
             started_with_frames Hs Hr).
  split; reflexivity.
Defined.

(** A Reset response handled with the restart flag clear, then a callback. *)
Lemma reset_without_restart_silences_callback_witness :
  restart (sample_context 2 1 false 0) = false
  /\ keeps (K := scripted nothing_fails) status Resources_free
  /\ keeps (K := scripted nothing_fails) status Hid_free
  /\ ipts_receiver_callback (K := scripted nothing_fails)
       (after (ipts_receiver_handle_reset (K := scripted nothing_fails)
                 (sample_context 2 1 false 0)))
     = {| value := tt; after := sample_context 3 1 false 0; trace := [] |}.
Proof.
  assert (Kr : keeps (K := scripted nothing_fails) status Resources_free)
    by (intros ?; reflexivity).
  assert (Kh : keeps (K := scripted nothing_fails) status Hid_free)
    by (intros ?; reflexivity).
  split; [reflexivity|]. split; [exact Kr|]. split; [exact Kh|].
  exact (proj2 (reset_without_restart_silences_callback
                  (K := scripted nothing_fails)
                  (sample_context 2 1 false 0) eq_refl Kr Kh)).
Defined.

(** Sensor-disabled (9) on a Reset response: accepted while Stopping (2),
    a fault while Started (1). *)
Lemma sensor_disabled_depends_on_host_state_witness :
  enumerators_distinct = true
  /\ trace (ipts_receiver_handle_response (K := scripted nothing_fails)
              (sample_response 0x8000000b 9) (sample_context 2 1 false 0))
     = [Store_status 3; Call Resources_free; Call Hid_free]
  /\ trace (ipts_receiver_handle_response (K := scripted nothing_fails)
              (sample_response 0x8000000b 9) (sample_context 1 1 false 0))
     = [Dev_err "Command 0x%08x failed: %d" [0x8000000b; 9]].
Proof.
  assert (Hn : status (sample_context 1 1 false 0)
               <> IPTS_HOST_STATUS_STOPPING) by differ.
  assert (Hd : enumerators_distinct = true) by reflexivity.
  assert (Hs : rsp_status (sample_response 0x8000000b 9)
               = IPTS_STATUS_SENSOR_DISABLED
               \/ rsp_status (sample_response 0x8000000b 9)
                  = IPTS_STATUS_SENSOR_EXPECTED_RESET)
    by (left; reflexivity).
  assert (Hc : rsp_code (sample_response 0x8000000b 9)
               = IPTS_RSP_RESET_SENSOR) by reflexivity.
  assert (Hh : status (sample_context 2 1 false 0)
               = IPTS_HOST_STATUS_STOPPING) by reflexivity.
  split; [exact Hd|]. split.
  - rewrite (proj1 (sensor_disabled_depends_on_host_state
                      (K := scripted nothing_fails)
                      (sample_response 0x8000000b 9)
                      (sample_context 2 1 false 0)
                      Hd Hs Hc eq_refl) Hh).
    reflexivity.
  - rewrite (proj2 (sensor_disabled_depends_on_host_state
                      (K := scripted nothing_fails)
                      (sample_response 0x8000000b 9)
                      (sample_context 1 1 false 0)
                      Hd Hs Hc eq_refl) Hn).
    reflexivity.
Defined.

(** Invalid-parameters (1) on Feedback in Singletouch mode, with a
    "ready for data" command that fails, and on Set-Mode. *)
Lemma invalid_params_tolerated_for_feedback_witness :
  enumerators_distinct = true
  /\ calls is_ready_for_data
       (trace (ipts_receiver_handle_response (K := scripted fails_ready_for_data)
                 (sample_response 0x80000006 1) (sample_context 1 0 false 0)))
     = 1%nat
  /\ trace (ipts_receiver_handle_response (K := scripted fails_ready_for_data)
              (sample_response 0x80000002 1) (sample_context 1 0 false 0))
     = [Dev_err "Command 0x%08x failed: %d" [0x80000002; 1]].
Proof.
  assert (Hc : rsp_code (sample_response 0x80000002 1) <> IPTS_RSP_FEEDBACK)
    by differ.
  assert (Hd : enumerators_distinct = true) by reflexivity.
  assert (Hf : rsp_code (sample_response 0x80000006 1) = IPTS_RSP_FEEDBACK)
    by reflexivity.
  assert (Hm : mode (sample_context 1 0 false 0) = IPTS_MODE_SINGLETOUCH)
    by reflexivity.
  split; [exact Hd|]. split.
  - exact (proj1 (proj1 (invalid_params_tolerated_for_feedback
                           (K := scripted fails_ready_for_data)
                           (sample_response 0x80000006 1)
                           (sample_context 1 0 false 0) Hd eq_refl)
                   Hf Hm)).
  - rewrite (proj2 (proj2 (invalid_params_tolerated_for_feedback
                             (K := scripted fails_ready_for_data)
                             (sample_response 0x80000002 1)
                             (sample_context 1 0 false 0) Hd eq_refl))
               Hc).
    reflexivity.
Defined.

(** Set-Mem-Window with a failing "ready for data" command: the host ends
    in Stopping (2), as the stop procedure leaves it. *)
Lemma set_mem_window_command_failure_stops_witness :
  enumerators_distinct = true
  /\ fst (run (collaborators := scripted fails_ready_for_data)
            Cmd_ready_for_data
            (set_on_device_ready true
               (snd (run (collaborators := scripted fails_ready_for_data)
                       Hid_init
                       (set_status IPTS_HOST_STATUS_STARTED
                          (sample_context 0 1 false 0)))))) <> 0
  /\ (let r := ipts_receiver_handle_response
                 (K := scripted fails_ready_for_data)
                 (sample_response 0x80000003 0) (sample_context 0 1 false 0) in
      status (after r) = 2 /\ calls is_stop (trace r) = 1%nat).
Proof.
  assert (Hu : rsp_status (sample_response 0x80000003 0)
               <> IPTS_STATUS_SENSOR_UNEXPECTED_RESET) by differ.
  assert (Hf : fst (run (collaborators := scripted fails_ready_for_data)
                      Cmd_ready_for_data
                      (set_on_device_ready true
                         (snd (run (collaborators :=
                                      scripted fails_ready_for_data)
                                 Hid_init
                                 (set_status IPTS_HOST_STATUS_STARTED
                                    (sample_context 0 1 false 0)))))) <> 0)
    by differ.
  assert (Hd : enumerators_distinct = true) by reflexivity.
  assert (Ho : rsp_code (sample_response 0x80000003 0)
               = IPTS_RSP_SET_MEM_WINDOW) by reflexivity.
  assert (He : value (ipts_receiver_handle_error
                        (sample_response 0x80000003 0)
                        (sample_context 0 1 false 0)) = false)
    by reflexivity.
  split; [exact Hd|]. split; [exact Hf|].
  destruct (set_mem_window_command_failure_stops
              (K := scripted fails_ready_for_data)
              (sample_response 0x80000003 0) (sample_context 0 1 false 0)
              Hd Ho Hu He Hf) as (_ & Ha & Hc).
  split; [rewrite Ha; reflexivity | exact Hc].
Defined.

(** Set-Mode with collaborators that all succeed. *)
Lemma set_mode_success_issues_mem_window_witness :
  enumerators_distinct = true
  /\ fst (run (collaborators := scripted nothing_fails) Resources_alloc
            (sample_context 0 1 false 0)) = 0
  /\ ipts_receiver_handle_response (K := scripted nothing_fails)
       (sample_response 0x80000002 0) (sample_context 0 1 false 0)
     = {| value := tt; after := sample_context 0 1 false 0;
          trace := [Call Resources_alloc; Call Cmd_set_mem_window] |}.
Proof.
  assert (Hu : rsp_status (sample_response 0x80000002 0)
               <> IPTS_STATUS_SENSOR_UNEXPECTED_RESET) by differ.
  assert (Hd : enumerators_distinct = true) by reflexivity.
  assert (Ho : rsp_code (sample_response 0x80000002 0) = IPTS_RSP_SET_MODE)
    by reflexivity.
  assert (He : value (ipts_receiver_handle_error
                        (sample_response 0x80000002 0)
                        (sample_context 0 1 false 0)) = false)
    by reflexivity.
  assert (Ha : fst (run (collaborators := scripted nothing_fails)
                      Resources_alloc (sample_context 0 1 false 0)) = 0)
    by reflexivity.
  split; [exact Hd|]. split; [exact Ha|].
  exact (proj2 (proj2 (proj2
           (set_mode_success_issues_mem_window (K := scripted nothing_fails)
              (sample_response 0x80000002 0) (sample_context 0 1 false 0)
              Hd Ho Hu He Ha))) eq_refl).
Defined.

(** A five-byte payload and a four-byte device info. *)
Lemma get_device_info_stores_prefix_and_sets_mode_witness :
  (sizeof_device_info
   <= List.length (rsp_payload (sample_response 0x80000001 0)))%nat
  /\ device_info
       (after (ipts_receiver_handle_get_device_info
                 (K := scripted nothing_fails)
                 (sample_response 0x80000001 0) (sample_context 0 1 false 0)))
     = [x2a; x00; x01; x02]%byte.
Proof.
  assert (Hl : (sizeof_device_info
                <= List.length (rsp_payload (sample_response 0x80000001 0)))%nat)
    by (cbn; lia).
  split; [exact Hl|].
  destruct (get_device_info_stores_prefix_and_sets_mode
              (K := scripted nothing_fails)
              (sample_response 0x80000001 0) (sample_context 0 1 false 0) Hl)
    as (_ & _ & _ & _ & Ha).
  rewrite Ha. reflexivity.
Defined.

(** Status 8 is an error in host states 1 and 2 alike, and for the opcodes
    Feedback and Set-Mode alike. *)
Lemma classifier_context_dependence_witness :
  rsp_status (sample_response 0x80000002 8)
  = rsp_status (sample_response 0x80000006 8)
  /\ value (ipts_receiver_handle_error (sample_response 0x80000006 8)
              (sample_context 1 1 false 0))
     = value (ipts_receiver_handle_error (sample_response 0x80000006 8)
                (sample_context 2 1 false 0))
  /\ value (ipts_receiver_handle_error (sample_response 0x80000006 8)
              (sample_context 1 1 false 0))
     = value (ipts_receiver_handle_error (sample_response 0x80000002 8)
                (sample_context 1 1 false 0)).
Proof.
  assert (H1 : rsp_status (sample_response 0x80000006 8)
               <> IPTS_STATUS_SENSOR_DISABLED) by differ.
  assert (H2 : rsp_status (sample_response 0x80000006 8)
               <> IPTS_STATUS_SENSOR_EXPECTED_RESET) by differ.
  assert (H3 : rsp_status (sample_response 0x80000006 8)
               <> IPTS_STATUS_INVALID_PARAMS) by differ.
  split; [reflexivity|].
  destruct (classifier_context_dependence
              (sample_response 0x80000006 8) (sample_response 0x80000002 8)
              (sample_context 1 1 false 0) (sample_context 2 1 false 0)
              eq_refl) as (Ha & Hb).
  split; [exact (Ha H1 H2) | exact (Hb H3)].
Defined.

(** A Reset response dispatched while the host is Stopping (2): the only
    value stored is Stopped (3). *)
Lemma status_stores_of_dispatch_witness :
  IPTS_HOST_STATUS_STOPPING <> IPTS_HOST_STATUS_STARTED
  /\ IPTS_HOST_STATUS_STOPPING <> IPTS_HOST_STATUS_STOPPED
  /\ status_stores
       (trace (ipts_receiver_handle_response (K := scripted nothing_fails)
                 (sample_response 0x8000000b 0) (sample_context 2 1 false 0)))
     = [IPTS_HOST_STATUS_STOPPED]
  /\ ~ In IPTS_HOST_STATUS_STOPPING
         (status_stores
            (trace (ipts_receiver_handle_response
                      (K := scripted nothing_fails)
                      (sample_response 0x8000000b 0)
                      (sample_context 2 1 false 0)))).
Proof.
  assert (H1 : IPTS_HOST_STATUS_STOPPING <> IPTS_HOST_STATUS_STARTED)
    by differ.
  assert (H2 : IPTS_HOST_STATUS_STOPPING <> IPTS_HOST_STATUS_STOPPED)
    by differ.
  split; [exact H1|]. split; [exact H2|]. split; [reflexivity|].
  exact (proj2 (status_stores_of_dispatch (K := scripted nothing_fails)
                  (sample_response 0x8000000b 0)
                  (sample_context 2 1 false 0)) H1 H2).
Defined.
